(** * convert_exercises.py: a shallow embedding and its properties

    The script turns a directory of Dodona exercises into one JavaScript
    data file.  Python [str] values are modelled by [string]: a character is
    a code point below 256.  Library parsers ([json.load], [yaml.safe_load])
    are not re-implemented: what they return or raise for a file is part of
    the modelled directory.  Built-in methods ([str.replace], [str.strip],
    [str.split], [str.lower], [re.sub], [list.sort], [json.dumps], [repr])
    are modelled by functions with the same results on this domain.

    The first part gives the definitions: the script function by function,
    then the statements of the specification said in words.  The second part
    proves the properties. *)

From Stdlib Require Import Strings.String Strings.Ascii Lists.List.
From Stdlib Require Import NArith ZArith Bool Arith Lia.
From Stdlib Require Import Sorting.Permutation Sorting.Sorted.
From Stdlib Require Import Numbers.DecimalString.
From Equations Require Import Equations.
Import ListNotations.

Open Scope string_scope.

(** ** Characters *)

Module Char.

Definition code (c : ascii) : N := N_of_ascii c.

Definition between (lo hi : N) (c : ascii) : bool :=
  (N.leb lo (code c) && N.leb (code c) hi)%bool.

Definition is_digit (c : ascii) : bool := between 48 57 c.
Definition is_ascii_upper (c : ascii) : bool := between 65 90 c.
Definition is_ascii_lower (c : ascii) : bool := between 97 122 c.

(** Letters and digits of the ASCII range: what the slug keeps. *)
Definition is_alnum (c : ascii) : bool :=
  (is_ascii_upper c || is_ascii_lower c || is_digit c)%bool.

(** [str.lower] on one code point below 256: A-Z and the Latin-1 capitals
    (U+00C0-U+00DE without the multiplication sign) move up by 32.  Above
    255, which no string here holds, two characters lower into the ASCII
    letters (U+212A to k, U+0130 to i and a combining dot); what is proved
    of the id below uses of [lower] only what holds there too: a letter or
    digit of the ASCII range stays one, and no capital A-Z comes out. *)
Definition is_cased_upper (c : ascii) : bool :=
  (is_ascii_upper c || between 192 214 c || between 216 222 c)%bool.

Definition lower (c : ascii) : ascii :=
  if is_cased_upper c then ascii_of_N (code c + 32) else c.

(** [str.isspace] on code points below 256. *)
Definition is_space (c : ascii) : bool :=
  (between 9 13 c || between 28 32 c || N.eqb (code c) 133
   || N.eqb (code c) 160)%bool.

(** The character class [[^a-z0-9]] of [folder_name_to_id]. *)
Definition not_lower_alnum (c : ascii) : bool :=
  negb (is_ascii_lower c || is_digit c).

End Char.

(** ** Python string methods *)

Module Str.

Fixpoint map (f : ascii -> ascii) (s : string) : string :=
  match s with
  | EmptyString => EmptyString
  | String c s' => String (f c) (map f s')
  end.

Fixpoint forallb (p : ascii -> bool) (s : string) : bool :=
  match s with
  | EmptyString => true
  | String c s' => (p c && forallb p s')%bool
  end.

Fixpoint existsb (p : ascii -> bool) (s : string) : bool :=
  match s with
  | EmptyString => false
  | String c s' => (p c || existsb p s')%bool
  end.

Fixpoint flatten (l : list string) : string :=
  match l with
  | [] => EmptyString
  | s :: l' => s ++ flatten l'
  end.

(** [s.lower()] *)
Definition lower (s : string) : string := map Char.lower s.

(** What is left of [s] after its longest prefix of characters in [p]. *)
Fixpoint drop_while (p : ascii -> bool) (s : string) : string :=
  match s with
  | EmptyString => EmptyString
  | String c s' => if p c then drop_while p s' else s
  end.

(** [s.lstrip(chars)], [s.rstrip(chars)] and [s.strip(chars)], the set
    [chars] given by its membership test. *)
Definition lstrip_by (p : ascii -> bool) (s : string) : string :=
  drop_while p s.

Fixpoint rstrip_by (p : ascii -> bool) (s : string) : string :=
  match s with
  | EmptyString => EmptyString
  | String c s' =>
      match rstrip_by p s' with
      | EmptyString => if p c then EmptyString else String c EmptyString
      | r => String c r
      end
  end.

Definition strip_by (p : ascii -> bool) (s : string) : string :=
  rstrip_by p (lstrip_by p s).

(** [s.strip()] and [s.rstrip()]: whitespace. *)
Definition strip (s : string) : string := strip_by Char.is_space s.
Definition rstrip (s : string) : string := rstrip_by Char.is_space s.

(** [s.strip(chars)] for a literal [chars]. *)
Definition strip_chars (chars : string) (s : string) : string :=
  strip_by (fun c => existsb (Ascii.eqb c) chars) s.

(** [s.split(sep)] for a separator of one character. *)
Fixpoint split (sep : ascii) (s : string) : list string :=
  match s with
  | EmptyString => [EmptyString]
  | String c s' =>
      if Ascii.eqb c sep then EmptyString :: split sep s'
      else match split sep s' with
           | h :: t => String c h :: t
           | [] => [String c EmptyString]
           end
  end.

(** [s.startswith(pre)] *)
Fixpoint starts_with (pre s : string) : bool :=
  match pre, s with
  | EmptyString, _ => true
  | String _ _, EmptyString => false
  | String a pre', String b s' => (Ascii.eqb a b && starts_with pre' s')%bool
  end.

(** [s[n:]] *)
Fixpoint drop (n : nat) (s : string) : string :=
  match n, s with
  | O, _ => s
  | S _, EmptyString => EmptyString
  | S n', String _ s' => drop n' s'
  end.

(** [sub in s] for two strings. *)
Fixpoint contains (sub s : string) : bool :=
  match s with
  | EmptyString => starts_with sub EmptyString
  | String _ s' => (starts_with sub s || contains sub s')%bool
  end.

(** [sep.join(l)] *)
Fixpoint join (sep : string) (l : list string) : string :=
  match l with
  | [] => EmptyString
  | [s] => s
  | s :: l' => s ++ sep ++ join sep l'
  end.

(** [new.join(s) ] with [new] also in front and behind: what
    [s.replace('', new)] returns. *)
Fixpoint surround (new s : string) : string :=
  match s with
  | EmptyString => new
  | String c s' => new ++ String c (surround new s')
  end.

End Str.

(** ** [re.sub] for a pattern [[class]+]

    The scanner looks for the leftmost match; a match of [[class]+] starts
    at the first character in the class and, being greedy, runs to the end
    of the run.  The match is replaced and the scan goes on behind it. *)

Equations? re_sub_plus (cls : ascii -> bool) (repl : string) (s : string)
  : string by wf (String.length s) lt :=
  re_sub_plus cls repl EmptyString := EmptyString;
  re_sub_plus cls repl (String c s') with cls c => {
    | true := repl ++ re_sub_plus cls repl (Str.drop_while cls s');
    | false := String c (re_sub_plus cls repl s') }.
Proof.
  assert (forall t, String.length (Str.drop_while cls t) <= String.length t)
    as shorter.
  { induction t as [|d t IH]; simpl; [lia|]. destruct (cls d); simpl; lia. }
  specialize (shorter s'). simpl. lia.
Qed.

(** ** [str.replace]

    Occurrences of [old] are replaced from the left and do not overlap: once
    one is found the scan goes on behind it. *)

Equations? replace (old new s : string) : string by wf (String.length s) lt :=
  replace EmptyString new s := Str.surround new s;
  replace (String o old') new EmptyString := EmptyString;
  replace (String o old') new (String c s')
    with (Ascii.eqb o c && Str.starts_with old' s')%bool => {
    | true := new ++ replace (String o old') new
                       (Str.drop (String.length old') s');
    | false := String c (replace (String o old') new s') }.
Proof.
  assert (forall n t, String.length (Str.drop n t) <= String.length t)
    as shorter.
  { induction n as [|n IH]; intros [|d t]; simpl; try lia.
    specialize (IH t). lia. }
  specialize (shorter (String.length old') s'). simpl. lia.
Qed.

(** ** The script: text helpers *)

Definition nl : string := String "010" EmptyString.
Definition dquote : string := String "034" EmptyString.

(** [markdown_content.replace('\\', '\\\\').replace('`', '\\`')
    .replace('${', '\\${')] *)
Definition convert_markdown_to_js_string (markdown_content : string) : string :=
  replace "${" "\${"
    (replace "`" "\`" (replace "\" "\\" markdown_content)).

(** [re.sub(r'[^a-z0-9]+', '-', folder_name.lower()).strip('-')] *)
Definition folder_name_to_id (folder_name : string) : string :=
  Str.strip_chars "-"
    (re_sub_plus Char.not_lower_alnum "-" (Str.lower folder_name)).

(** ** Python values

    What [json.load] and [yaml.safe_load] build: [None], booleans, integers,
    strings, lists, and dicts keyed by strings (an association list read from
    the left).  Floats, dates and keys of other types are not modelled. *)

#[warning="-register-all"]
Inductive pyval : Type :=
| PNone
| PBool (b : bool)
| PInt (z : Z)
| PStr (s : string)
| PList (l : list pyval)
| PDict (d : list (string * pyval)).

Definition type_name (v : pyval) : string :=
  match v with
  | PNone => "NoneType"
  | PBool _ => "bool"
  | PInt _ => "int"
  | PStr _ => "str"
  | PList _ => "list"
  | PDict _ => "dict"
  end.

(** [bool(v)] *)
Definition py_truthy (v : pyval) : bool :=
  match v with
  | PNone => false
  | PBool b => b
  | PInt z => negb (Z.eqb z 0)
  | PStr s => negb (String.eqb s EmptyString)
  | PList l => match l with [] => false | _ => true end
  | PDict d => match d with [] => false | _ => true end
  end.

(** [isinstance(v, list)] *)
Definition is_list (v : pyval) : bool :=
  match v with PList _ => true | _ => false end.

Fixpoint lookup (k : string) (d : list (string * pyval)) : option pyval :=
  match d with
  | [] => None
  | (k', v) :: d' => if String.eqb k k' then Some v else lookup k d'
  end.

(** ** Exceptions

    Every class below derives from [Exception]; [YAMLError] stands for
    [yaml.YAMLError] and its subclasses, [OSError] for the remaining I/O
    errors.  [ValueError] is what a constructor of the YAML loader raises
    on a value it cannot build (a date such as 2001-02-30); it is no
    [YAMLError].  The text is what [str(e)] gives. *)

Inductive exn_class : Type :=
| FileNotFoundError
| UnicodeDecodeError
| OSError
| JSONDecodeError
| YAMLError
| AttributeError
| TypeError
| KeyError
| ValueError.

Record exn : Type := Exn { exn_class_of : exn_class; exn_text : string }.

Definition is_YAMLError (e : exn) : bool :=
  match exn_class_of e with YAMLError => true | _ => false end.

Definition is_missing_or_undecodable (e : exn) : bool :=
  match exn_class_of e with
  | FileNotFoundError | UnicodeDecodeError => true
  | _ => false
  end.

Inductive result (A : Type) : Type :=
| Ok (a : A)
| Raise (e : exn).
Arguments Ok {A} a.
Arguments Raise {A} e.

Definition rbind {A B} (m : result A) (f : A -> result B) : result B :=
  match m with
  | Ok a => f a
  | Raise e => Raise e
  end.

Declare Scope py_scope.
Delimit Scope py_scope with py.
Notation "x <- m ;; k" := (rbind m (fun x => k))
  (at level 61, m at next level, right associativity) : py_scope.

(** A loop body run over a list, stopping at the first exception. *)
Fixpoint for_each {A B} (f : A -> result B) (l : list A) : result (list B) :=
  match l with
  | [] => Ok []
  | a :: l' =>
      match f a with
      | Raise e => Raise e
      | Ok b =>
          match for_each f l' with
          | Raise e => Raise e
          | Ok bs => Ok (b :: bs)
          end
      end
  end.

(** Messages of the interpreter's own errors (they differ a little between
    CPython versions). *)
Definition no_attribute (v : pyval) (attr : string) : exn :=
  Exn AttributeError
    ("'" ++ type_name v ++ "' object has no attribute '" ++ attr ++ "'").

Definition not_iterable (v : pyval) : exn :=
  Exn TypeError ("'" ++ type_name v ++ "' object is not iterable").

Definition not_a_container (v : pyval) : exn :=
  Exn TypeError ("argument of type '" ++ type_name v ++ "' is not iterable").

Definition bad_index (v : pyval) : exn :=
  Exn TypeError
    match v with
    | PStr _ => "string indices must be integers"
    | PList _ => "list indices must be integers or slices, not str"
    | _ => "'" ++ type_name v ++ "' object is not subscriptable"
    end.

(** [k in v] for a string [k] *)
Definition py_contains (k : string) (v : pyval) : result bool :=
  match v with
  | PDict d => Ok (match lookup k d with Some _ => true | None => false end)
  | PList l =>
      Ok (existsb
            (fun x => match x with PStr s => String.eqb s k | _ => false end)
            l)
  | PStr s => Ok (Str.contains k s)
  | _ => Raise (not_a_container v)
  end.

(** [v[k]] for a string [k] *)
Definition py_getitem (v : pyval) (k : string) : result pyval :=
  match v with
  | PDict d =>
      match lookup k d with
      | Some x => Ok x
      | None => Raise (Exn KeyError ("'" ++ k ++ "'"))
      end
  | _ => Raise (bad_index v)
  end.

(** [v.get(k, default)] *)
Definition py_get (v : pyval) (k : string) (default : pyval) : result pyval :=
  match v with
  | PDict d =>
      Ok (match lookup k d with Some x => x | None => default end)
  | _ => Raise (no_attribute v "get")
  end.

(** The items [for x in v] runs over. *)
Definition py_iter (v : pyval) : result (list pyval) :=
  match v with
  | PList l => Ok l
  | PDict d => Ok (map (fun kv => PStr (fst kv)) d)
  | PStr s =>
      Ok (map (fun c => PStr (String c EmptyString)) (list_ascii_of_string s))
  | _ => Raise (not_iterable v)
  end.

(** [v.strip().split('\n')] *)
Definition py_strip_split (v : pyval) : result (list string) :=
  match v with
  | PStr s => Ok (Str.split "010" (Str.strip s))
  | _ => Raise (no_attribute v "strip")
  end.

(** ** Printing values *)

Definition Z_to_string (z : Z) : string := NilZero.string_of_int (Z.to_int z).
Definition nat_to_string (n : nat) : string :=
  NilZero.string_of_uint (Nat.to_uint n).

Definition hex_digit (n : N) : ascii :=
  match String.get (N.to_nat n) "0123456789abcdef" with
  | Some c => c
  | None => "0"%char
  end.

Definition hex2 (c : ascii) : string :=
  String (hex_digit (Char.code c / 16))
    (String (hex_digit (Char.code c mod 16)) EmptyString).

(** One character inside a JSON string, as [json.dumps] writes it with
    [ensure_ascii] on. *)
Definition json_escape_char (c : ascii) : string :=
  if Ascii.eqb c "034" then "\" ++ dquote
  else if Ascii.eqb c "092" then "\\"
  else if Ascii.eqb c "010" then "\n"
  else if Ascii.eqb c "013" then "\r"
  else if Ascii.eqb c "009" then "\t"
  else if Ascii.eqb c "008" then "\b"
  else if Ascii.eqb c "012" then "\f"
  else if Char.between 32 126 c then String c EmptyString
  else "\u00" ++ hex2 c.

Fixpoint json_escape (s : string) : string :=
  match s with
  | EmptyString => EmptyString
  | String c s' => json_escape_char c ++ json_escape s'
  end.

Definition json_string (s : string) : string :=
  dquote ++ json_escape s ++ dquote.

(** [json.dumps(v)] *)
Fixpoint json_dumps (v : pyval) : string :=
  match v with
  | PNone => "null"
  | PBool true => "true"
  | PBool false => "false"
  | PInt z => Z_to_string z
  | PStr s => json_string s
  | PList l => "[" ++ Str.join ", " (map json_dumps l) ++ "]"
  | PDict d =>
      "{"
      ++ Str.join ", "
           (map (fun kv => json_string (fst kv) ++ ": " ++ json_dumps (snd kv))
                d)
      ++ "}"
  end.

(** [repr(s)] of a string: single quotes unless the text has a single quote
    and no double quote. *)
Definition repr_quote (s : string) : ascii :=
  if (Str.existsb (Ascii.eqb "039") s
      && negb (Str.existsb (Ascii.eqb "034") s))%bool
  then "034"%char
  else "039"%char.

Definition is_printable (c : ascii) : bool :=
  (Char.between 32 126 c
   || (Char.between 161 255 c && negb (N.eqb (Char.code c) 173)))%bool.

Definition repr_char (q c : ascii) : string :=
  if (Ascii.eqb c q || Ascii.eqb c "092")%bool
  then String "092" (String c EmptyString)
  else if Ascii.eqb c "009" then "\t"
  else if Ascii.eqb c "010" then "\n"
  else if Ascii.eqb c "013" then "\r"
  else if is_printable c then String c EmptyString
  else "\x" ++ hex2 c.

Definition repr_string (s : string) : string :=
  let q := repr_quote s in
  String q (Str.flatten (map (repr_char q) (list_ascii_of_string s))
            ++ String q EmptyString).

(** [repr(v)] and [str(v)]; an f-string field [{v}] is [str(v)]. *)
Fixpoint py_repr (v : pyval) : string :=
  match v with
  | PNone => "None"
  | PBool true => "True"
  | PBool false => "False"
  | PInt z => Z_to_string z
  | PStr s => repr_string s
  | PList l => "[" ++ Str.join ", " (map py_repr l) ++ "]"
  | PDict d =>
      "{"
      ++ Str.join ", "
           (map (fun kv => repr_string (fst kv) ++ ": " ++ py_repr (snd kv))
                d)
      ++ "}"
  end.

Definition py_str (v : pyval) : string :=
  match v with
  | PStr s => s
  | _ => py_repr v
  end.

(** ** Files

    A text file is what [open(path, 'r', encoding='utf-8')] followed by
    [read()] meets: the decoded characters, or the exception raised.
    Reading in text mode turns every line ending into a line feed. *)

Fixpoint universal_newlines (raw : string) : string :=
  match raw with
  | EmptyString => EmptyString
  | String c rest =>
      if Ascii.eqb c "013" then
        String "010"
          match rest with
          | String d rest' =>
              if Ascii.eqb d "010" then universal_newlines rest'
              else universal_newlines rest
          | EmptyString => EmptyString
          end
      else String c (universal_newlines rest)
  end.

Definition read_file_safe (file : result string) : result string :=
  match file with
  | Ok raw => Ok (universal_newlines raw)
  | Raise e => if is_missing_or_undecodable e then Ok EmptyString else Raise e
  end.

(** The files of one exercise directory.  [None] is a path that does not
    exist; for the two parsed files the value is what the parser returns or
    the exception that opening, decoding or parsing raises. *)
Record exercise_files : Type := {
  config_json : option (result pyval);
  description_md : result string;
  solution_txt : result string;
  suite_yaml : option (result pyval)
}.

(** ** Records *)

Record TestCase : Type := {
  arguments : pyval;
  expectedOutput : pyval;
  expectedExitCode : pyval;
  input : list string
}.

(** The keys of the dict that [convert_exercise] builds for a test case. *)
Definition test_case_keys : list string :=
  ["arguments"; "expectedOutput"; "expectedExitCode"; "input"].

(** [k in tc] *)
Definition has_key (k : string) (tc : TestCase) : bool :=
  existsb (String.eqb k) test_case_keys.

Record ExerciseRecord : Type := {
  id : string;
  title : pyval;
  description : string;
  solution : string;
  testCases : list TestCase
}.

(** ** Printing and failing: the effects of the script

    A computation prints some lines (one string per call of [print]) and then
    returns a value or raises. *)

Definition io (A : Type) : Type := (list string * result A)%type.

Definition ret {A} (a : A) : io A := ([], Ok a).
Definition raise {A} (e : exn) : io A := ([], Raise e).
Definition print (line : string) : io unit := ([line], Ok tt).
Definition lift {A} (r : result A) : io A := ([], r).

Definition bind {A B} (m : io A) (f : A -> io B) : io B :=
  match snd m with
  | Ok a => (fst m ++ fst (f a), snd (f a))%list
  | Raise e => (fst m, Raise e)
  end.

Declare Scope io_scope.
Delimit Scope io_scope with io.
Notation "x <- m ;; k" := (bind m (fun x => k))
  (at level 61, m at next level, right associativity) : io_scope.
Notation "m ;; k" := (bind m (fun _ => k))
  (at level 61, right associativity) : io_scope.

(** ** The script: one exercise *)

(** Lines 65-67: the input lines of one entry of a [testcases] list. *)
Definition input_lines_of (test_case : pyval) : result (list string) :=
  (has_stdin <- py_contains "stdin" test_case ;;
   if has_stdin then
     stdin <- py_getitem test_case "stdin" ;;
     if py_truthy stdin then py_strip_split stdin else Ok []
   else Ok [])%py.

(** Lines 64-74: the body of the inner loop. *)
Definition convert_test_case (test_case : pyval) : result TestCase :=
  (input_lines <- input_lines_of test_case ;;
   args <- py_get test_case "arguments" (PList []) ;;
   out <- py_get test_case "stdout" (PStr EmptyString) ;;
   code <- py_get test_case "exit_code" (PInt 0) ;;
   Ok {| arguments := args;
         expectedOutput := out;
         expectedExitCode := code;
         input := input_lines |})%py.

(** Lines 62-74: the body of the outer loop. *)
Definition convert_tab (tab : pyval) : result (list TestCase) :=
  (has_testcases <- py_contains "testcases" tab ;;
   if has_testcases then
     testcases <- py_getitem tab "testcases" ;;
     entries <- py_iter testcases ;;
     for_each convert_test_case entries
   else Ok [])%py.

(** Lines 60-74. *)
Definition convert_suite (suite_data : pyval) : result (list TestCase) :=
  if (py_truthy suite_data && is_list suite_data)%bool then
    (tabs <- py_iter suite_data ;;
     per_tab <- for_each convert_tab tabs ;;
     Ok (concat per_tab))%py
  else Ok [].

Definition yaml_warning (folder_name : string) (e : exn) : string :=
  "Warning: Could not parse YAML for " ++ folder_name ++ ": " ++ exn_text e.

(** Lines 53-76.  Only the loader raises [YAMLError], and it does so before
    the first test case is appended. *)
Definition read_suite (folder_name : string) (files : exercise_files)
  : io (list TestCase) :=
  match suite_yaml files with
  | None => ret []
  | Some loaded =>
      match (suite_data <- loaded ;; convert_suite suite_data)%py with
      | Ok test_cases => ret test_cases
      | Raise e =>
          if is_YAMLError e
          then (print (yaml_warning folder_name e) ;; ret [])%io
          else raise e
      end
  end.

(** Lines 34-38. *)
Definition load_config (files : exercise_files) : result pyval :=
  match config_json files with
  | None => Ok (PDict [])
  | Some loaded => loaded
  end.

(** Line 41. *)
Definition get_title (config : pyval) (folder_name : string) : result pyval :=
  (d <- py_get config "description" (PDict []) ;;
   names <- py_get d "names" (PDict []) ;;
   py_get names "en" (PStr folder_name))%py.

(** [folder_name] is the last component of the directory's path. *)
Definition convert_exercise (folder_name : string) (files : exercise_files)
  : io ExerciseRecord :=
  (let exercise_id := folder_name_to_id folder_name in
   config <- lift (load_config files) ;;
   title <- lift (get_title config folder_name) ;;
   description <- lift (read_file_safe (description_md files)) ;;
   solution <- lift (read_file_safe (solution_txt files)) ;;
   test_cases <- read_suite folder_name files ;;
   ret {| id := exercise_id;
          title := title;
          description := description;
          solution := solution;
          testCases := test_cases |})%io.

(** ** The script: the batch *)

(** An entry of [os.listdir(base_dir)]: its name and, for a directory, the
    files found below it. *)
Inductive dir_entry : Type :=
| RegularFile (item : string)
| Directory (item : string) (files : exercise_files).

Definition has_config (files : exercise_files) : bool :=
  match config_json files with Some _ => true | None => false end.

Definition converted_line (ex : ExerciseRecord) : string :=
  "Converted: " ++ py_str (title ex) ++ " ("
    ++ nat_to_string (List.length (testCases ex)) ++ " test cases)".

Definition error_line (item : string) (e : exn) : string :=
  "Error converting " ++ item ++ ": " ++ exn_text e.

(** Lines 91-99: one turn of the loop, on the lines printed and the records
    gathered so far.  The record is appended before its line is printed;
    printing is taken not to fail. *)
Definition scan_step (st : list string * list ExerciseRecord)
  (entry : dir_entry) : list string * list ExerciseRecord :=
  match entry with
  | RegularFile _ => st
  | Directory item files =>
      if has_config files then
        let run := convert_exercise item files in
        match snd run with
        | Ok ex =>
            (fst st ++ fst run ++ [converted_line ex], snd st ++ [ex])%list
        | Raise e =>
            (fst st ++ fst run ++ [error_line item e], snd st)%list
        end
      else st
  end.

Definition scan (entries : list dir_entry)
  : list string * list ExerciseRecord :=
  fold_left scan_step entries ([], []).

(** Line 102: [exercises.sort(key=lambda x: x['title'])].  The sort is
    stable and compares keys with [<]; between strings that is the order of
    the code points.  A title that is no string is outside this model: what
    the comparison does then is not described, and the result is [None]. *)
Definition title_is_str (ex : ExerciseRecord) : bool :=
  match title ex with PStr _ => true | _ => false end.

Definition title_lt (a b : ExerciseRecord) : bool :=
  match title a, title b with
  | PStr s, PStr t => String.ltb s t
  | _, _ => false
  end.

Fixpoint insert_by_title (x : ExerciseRecord) (l : list ExerciseRecord)
  : list ExerciseRecord :=
  match l with
  | [] => [x]
  | y :: l' => if title_lt y x then y :: insert_by_title x l' else x :: l
  end.

Definition stable_sort_by_title (l : list ExerciseRecord)
  : list ExerciseRecord :=
  fold_right insert_by_title [] l.

Definition sort_by_title (l : list ExerciseRecord)
  : option (list ExerciseRecord) :=
  if forallb title_is_str l then Some (stable_sort_by_title l) else None.

(** Lines 116-125. *)
Definition render_test_case (tc : TestCase) : string :=
  "            {" ++ nl
  ++ "                arguments: " ++ json_dumps (arguments tc) ++ "," ++ nl
  ++ "                expectedOutput: " ++ json_dumps (expectedOutput tc)
  ++ "," ++ nl
  ++ "                expectedExitCode: " ++ py_str (expectedExitCode tc)
  ++ (if py_truthy (PList (map PStr (input tc)))
      then "," ++ nl ++ "                input: "
           ++ json_dumps (PList (map PStr (input tc)))
      else EmptyString)
  ++ nl ++ "            }," ++ nl.

(** Lines 108-132; [last] is [i = len(exercises) - 1]. *)
Definition render_exercise (ex : ExerciseRecord) (last : bool) : string :=
  "    {" ++ nl
  ++ "        id: " ++ dquote ++ id ex ++ dquote ++ "," ++ nl
  ++ "        title: " ++ dquote ++ py_str (title ex) ++ dquote ++ "," ++ nl
  ++ "        description: `" ++ convert_markdown_to_js_string (description ex)
  ++ "`," ++ nl
  ++ "        solution: `" ++ convert_markdown_to_js_string (solution ex)
  ++ "`," ++ nl
  ++ "        testCases: [" ++ nl
  ++ Str.flatten (map render_test_case (testCases ex))
  ++ "        ]" ++ nl
  ++ "    }" ++ (if last then EmptyString else ",") ++ nl.

Fixpoint render_exercises (l : list ExerciseRecord) : string :=
  match l with
  | [] => EmptyString
  | [ex] => render_exercise ex true
  | ex :: l' => render_exercise ex false ++ render_exercises l'
  end.

Definition render_js (l : list ExerciseRecord) : string :=
  "// Exercise data converted from Dodona format" ++ nl
  ++ "const exercises = [" ++ nl
  ++ render_exercises l
  ++ "];".

(** What a run leaves behind: the lines printed, the text written to
    [exercises-data.js] and the list returned. *)
Record outcome : Type := {
  stdout : list string;
  js_content : string;
  exercises : list ExerciseRecord
}.

Definition generate_exercises_js (entries : list dir_entry) : option outcome :=
  let st := scan entries in
  match sort_by_title (snd st) with
  | None => None
  | Some sorted =>
      let generated :=
        nl ++ "Generated exercises-data.js with "
           ++ nat_to_string (List.length sorted) ++ " exercises" in
      Some {| stdout := (fst st ++ [generated])%list;
              js_content := render_js sorted;
              exercises := sorted |}
  end.

(** Lines 148-153. *)
Definition has_input (ex : ExerciseRecord) : bool :=
  existsb (has_key "input") (testCases ex).

Definition summary_line (ex : ExerciseRecord) : string :=
  let test_count := List.length (testCases ex) in
  let input_note := if has_input ex then " (with input)" else EmptyString in
  "- " ++ py_str (title ex) ++ ": " ++ nat_to_string test_count
  ++ " test cases" ++ input_note.

Definition main (entries : list dir_entry) : option outcome :=
  match generate_exercises_js entries with
  | None => None
  | Some run =>
      let heading := nl ++ "Summary:" in
      Some {| stdout :=
                (stdout run ++ [heading]
                 ++ map summary_line (exercises run))%list;
              js_content := js_content run;
              exercises := exercises run |}
  end.

(** ** Reading a template literal back

    How JavaScript reads a template literal without substitutions
    (ECMAScript, Template Literal Lexical Components): the text runs up to
    the first backtick that no backslash protects; a dollar sign before an
    opening brace starts a substitution; a backslash starts an escape; a
    carriage return, alone or before a line feed, reads as one line feed.
    [template_chars] works on the text behind the opening backtick and
    gives the cooked value and the text behind the closing backtick.  It
    gives [None] for a literal that does not end, for one with a
    substitution, for an escape that is an error, and for the hexadecimal and
    Unicode escapes, which are not described here. *)

Definition single_escape (e : ascii) : option ascii :=
  if Ascii.eqb e "b" then Some "008"%char
  else if Ascii.eqb e "t" then Some "009"%char
  else if Ascii.eqb e "n" then Some "010"%char
  else if Ascii.eqb e "v" then Some "011"%char
  else if Ascii.eqb e "f" then Some "012"%char
  else if Ascii.eqb e "r" then Some "013"%char
  else if (Ascii.eqb e "x" || Ascii.eqb e "u" || Char.between 49 57 e)%bool
  then None
  else Some e.

Definition starts_with_digit (s : string) : bool :=
  match s with
  | String d _ => Char.is_digit d
  | EmptyString => false
  end.

Definition cons_cooked (c : ascii) (r : option (string * string))
  : option (string * string) :=
  match r with
  | Some (cooked, rest) => Some (String c cooked, rest)
  | None => None
  end.

Fixpoint template_chars (src : string) : option (string * string) :=
  match src with
  | EmptyString => None
  | String c rest =>
      if Ascii.eqb c "`" then Some (EmptyString, rest)
      else if Ascii.eqb c "$" then
        match rest with
        | String d _ =>
            if Ascii.eqb d "{" then None
            else cons_cooked c (template_chars rest)
        | EmptyString => None
        end
      else if Ascii.eqb c "013" then
        match rest with
        | String d rest' =>
            if Ascii.eqb d "010" then cons_cooked "010" (template_chars rest')
            else cons_cooked "010" (template_chars rest)
        | EmptyString => None
        end
      else if Ascii.eqb c "092" then
        match rest with
        | EmptyString => None
        | String e rest' =>
            if Ascii.eqb e "010" then template_chars rest'
            else if Ascii.eqb e "013" then
              match rest' with
              | String d rest'' =>
                  if Ascii.eqb d "010" then template_chars rest''
                  else template_chars rest'
              | EmptyString => None
              end
            else if Ascii.eqb e "0" then
              if starts_with_digit rest' then None
              else cons_cooked "000" (template_chars rest')
            else
              match single_escape e with
              | Some v => cons_cooked v (template_chars rest')
              | None => None
              end
        end
      else cons_cooked c (template_chars rest)
  end.

Definition template_literal (src : string) : option (string * string) :=
  match src with
  | String c body => if Ascii.eqb c "`" then template_chars body else None
  | EmptyString => None
  end.

(** ** The slug, said in words

    The name in lower case is cut into its maximal runs of characters that
    are alphanumeric and of characters that are not; a run of the second kind
    becomes one separator; separators at both ends are dropped. *)

Definition is_separator_run (c : ascii) : bool := negb (Char.is_alnum c).

Fixpoint runs (p : ascii -> bool) (s : string) : list (bool * string) :=
  match s with
  | EmptyString => []
  | String c s' =>
      match runs p s' with
      | (b, r) :: rest =>
          if Bool.eqb b (p c) then (b, String c r) :: rest
          else (p c, String c EmptyString) :: (b, r) :: rest
      | [] => [(p c, String c EmptyString)]
      end
  end.

Definition run_to_slug (run : bool * string) : string :=
  if fst run then "-" else snd run.

Definition drop_first_separator (s : string) : string :=
  match s with
  | String c s' => if Ascii.eqb c "-" then s' else s
  | EmptyString => EmptyString
  end.

Fixpoint drop_last_separator (s : string) : string :=
  match s with
  | EmptyString => EmptyString
  | String c EmptyString => if Ascii.eqb c "-" then EmptyString else s
  | String c s' => String c (drop_last_separator s')
  end.

Definition slug_in_words (D : string) : string :=
  drop_last_separator
    (drop_first_separator
       (Str.flatten (map run_to_slug (runs is_separator_run (Str.lower D))))).

(** ** The input lines, as the specification words them

    Trailing whitespace is trimmed, then the text is split at line feeds; a
    missing field, or one that is empty once trimmed, gives no line. *)

Definition input_in_words (stdin : option string) : list string :=
  match stdin with
  | None => []
  | Some s =>
      match Str.rstrip s with
      | EmptyString => []
      | trimmed => Str.split "010" trimmed
      end
  end.

(** A [testcases] entry with nothing but the given [stdin] field. *)
Definition entry_with_stdin (stdin : option string) : pyval :=
  match stdin with
  | None => PDict []
  | Some s => PDict [("stdin", PStr s)]
  end.

(** ** The order of the records, in words *)

Definition title_text (ex : ExerciseRecord) : string :=
  match title ex with
  | PStr s => s
  | _ => EmptyString
  end.

Definition has_title (t : string) (ex : ExerciseRecord) : bool :=
  match title ex with
  | PStr s => String.eqb s t
  | _ => false
  end.

(** [a] may stand before [b]: its title is not greater, code point by code
    point. *)
Definition by_title (a b : ExerciseRecord) : Prop :=
  String.leb (title_text a) (title_text b) = true.

(** ** The emitted lines, in words *)

(** A text without line feed. *)
Definition one_line (s : string) : Prop :=
  Str.existsb (Ascii.eqb "010") s = false.

(** The key as line 123 writes it, at the start of a line of its own. *)
Definition input_key : string := "                input: ".

Definition shows_input_key (literal : string) : bool :=
  existsb (Str.starts_with input_key) (Str.split "010" literal).

Definition stdin_absent_or_empty (d : list (string * pyval)) : bool :=
  match lookup "stdin" d with
  | None => true
  | Some v => negb (py_truthy v)
  end.

(** ** The batch, in words *)

(** The records one entry of the listing adds: one for a directory with a
    configuration file whose conversion returns, none otherwise. *)
Definition records_of (entry : dir_entry) : list ExerciseRecord :=
  match entry with
  | RegularFile _ => []
  | Directory item files =>
      if has_config files then
        match snd (convert_exercise item files) with
        | Ok ex => [ex]
        | Raise _ => []
        end
      else []
  end.

(** ** The emitted records, in words *)

(** The text of a record without test case, from its opening brace to its
    closing one; the two texts are written between backticks, escaped. *)
Definition record_without_tests (id_ title_ description_ solution_ : string)
  : string :=
  "    {" ++ nl
  ++ "        id: " ++ dquote ++ id_ ++ dquote ++ "," ++ nl
  ++ "        title: " ++ dquote ++ title_ ++ dquote ++ "," ++ nl
  ++ "        description: `" ++ convert_markdown_to_js_string description_
  ++ "`," ++ nl
  ++ "        solution: `" ++ convert_markdown_to_js_string solution_
  ++ "`," ++ nl
  ++ "        testCases: [" ++ nl
  ++ "        ]" ++ nl
  ++ "    }".

(** How the title line of a record starts, and the line of a record. *)
Definition title_marker : string := "        title: " ++ dquote.

Definition title_line (ex : ExerciseRecord) : string :=
  title_marker ++ title_text ex ++ dquote ++ ",".

(** The title lines of a text, from top to bottom. *)
Definition title_lines (text : string) : list string :=
  filter (Str.starts_with title_marker) (Str.split "010" text).

(** What a record holds behind its title line: the two texts, the test
    cases and the closing brace, followed by a comma unless the record is
    the last one. *)
Definition after_title (ex : ExerciseRecord) (last : bool) : string :=
  "        description: `" ++ convert_markdown_to_js_string (description ex)
  ++ "`," ++ nl
  ++ "        solution: `" ++ convert_markdown_to_js_string (solution ex)
  ++ "`," ++ nl
  ++ "        testCases: [" ++ nl
  ++ Str.flatten (map render_test_case (testCases ex))
  ++ "        ]" ++ nl
  ++ "    }" ++ (if last then EmptyString else ",") ++ nl.

(** A record whose title lies on one line and that has no second line
    starting as a title line does. *)
Definition one_title_line (ex : ExerciseRecord) : Prop :=
  one_line (title_text ex) /\
  forall last, title_lines (after_title ex last) = [].

(** ** Sample directories *)

Module Samples.

Definition titled_config (name : string) : pyval :=
  PDict [("description", PDict [("names", PDict [("en", PStr name)])])].

(** A suite the YAML loader rejects. *)
Definition broken_suite : exercise_files :=
  {| config_json := Some (Ok (titled_config "Broken"));
     description_md := Ok "Echo `x`.";
     solution_txt := Raise (Exn FileNotFoundError "No such file or directory");
     suite_yaml :=
       Some (Raise (Exn YAMLError "mapping values are not allowed here")) |}.

(** A suite whose bytes are no UTF-8: decoding raises when the file is
    read, before the parser sees a character. *)
Definition undecodable_suite : exercise_files :=
  {| config_json := Some (Ok (titled_config "Bytes"));
     description_md := Ok "Echo `x`.";
     solution_txt := Ok "echo x";
     suite_yaml :=
       Some (Raise (Exn UnicodeDecodeError
                      "'utf-8' codec can't decode byte 0xff in position 0: invalid start byte")) |}.

(** A suite with a date that does not exist: the loader parses it and fails
    to build the value. *)
Definition impossible_date_suite : exercise_files :=
  {| config_json := Some (Ok (titled_config "Dates"));
     description_md := Ok EmptyString;
     solution_txt := Ok EmptyString;
     suite_yaml :=
       Some (Raise (Exn ValueError "day is out of range for month")) |}.

(** A suite that is a mapping, not a list of tabs. *)
Definition mapping_suite : exercise_files :=
  {| config_json := Some (Ok (titled_config "Mapping"));
     description_md := Ok EmptyString;
     solution_txt := Ok "echo";
     suite_yaml := Some (Ok (PDict [("testcases", PList [PDict []])])) |}.

(** A configuration that is no JSON. *)
Definition broken_config : exercise_files :=
  {| config_json :=
       Some (Raise (Exn JSONDecodeError
                      "Expecting value: line 1 column 1 (char 0)"));
     description_md := Ok EmptyString;
     solution_txt := Ok EmptyString;
     suite_yaml := None |}.

(** One test case, and no [stdin] in it. *)
Definition hello : exercise_files :=
  {| config_json := Some (Ok (titled_config "Hello"));
     description_md := Ok "Say hello.";
     solution_txt := Ok "echo hello";
     suite_yaml :=
       Some (Ok (PList
                   [PDict [("tab", PStr "Output");
                           ("testcases",
                            PList [PDict [("arguments", PList []);
                                          ("stdout", PStr "hello")]])]])) |}.

End Samples.

(** ** Further statements, in words *)

(** The characters an id is made of. *)
Definition is_slug_char (c : ascii) : bool :=
  (Char.is_ascii_lower c || Char.is_digit c || Ascii.eqb c "-")%bool.

Fixpoint last_char (s : string) : option ascii :=
  match s with
  | EmptyString => None
  | String c EmptyString => Some c
  | String _ s' => last_char s'
  end.

(** The places where the escaping puts a backslash: each backslash, each
    backtick, each dollar sign before an opening brace. *)
Fixpoint escapes_needed (s : string) : nat :=
  match s with
  | EmptyString => 0
  | String c s' =>
      (if (Ascii.eqb c "092" || Ascii.eqb c "`"
           || (Ascii.eqb c "$" && Str.starts_with "{" s'))%bool
       then 1 else 0)
      + escapes_needed s'
  end.

(** A text with no backslash, no backtick and no ["${"]. *)
Definition is_plain (s : string) : bool :=
  (negb (Str.existsb (Ascii.eqb "092") s)
   && negb (Str.existsb (Ascii.eqb "`") s)
   && negb (Str.contains "${" s))%bool.

Definition is_dict (v : pyval) : bool :=
  match v with PDict _ => true | _ => false end.

Definition is_str (v : pyval) : bool :=
  match v with PStr _ => true | _ => false end.

(** A suite as the script expects it: a list of mappings; the [testcases]
    of a mapping, if any, a list of mappings; the [stdin] of a test case, if
    any, a string or a falsy value. *)
Definition entry_ok (v : pyval) : bool :=
  match v with
  | PDict d =>
      match lookup "stdin" d with
      | None => true
      | Some x => (negb (py_truthy x) || is_str x)%bool
      end
  | _ => false
  end.

Definition tab_ok (tab : pyval) : bool :=
  match tab with
  | PDict d =>
      match lookup "testcases" d with
      | None => true
      | Some (PList l) => forallb entry_ok l
      | Some _ => false
      end
  | _ => false
  end.

Definition tab_entries (tab : pyval) : list pyval :=
  match tab with
  | PDict d =>
      match lookup "testcases" d with
      | Some (PList l) => l
      | _ => []
      end
  | _ => []
  end.

(** The entries of the listing the loop converts, and those among them
    whose conversion raises. *)
Definition is_candidate (entry : dir_entry) : bool :=
  match entry with
  | RegularFile _ => false
  | Directory _ files => has_config files
  end.

Definition conversion_fails (entry : dir_entry) : bool :=
  match entry with
  | RegularFile _ => false
  | Directory item files =>
      (has_config files
       && match snd (convert_exercise item files) with
          | Ok _ => false
          | Raise _ => true
          end)%bool
  end.

(** * Properties *)

(** ** The script at work *)

Module Examples.

Example slug_of_symbols : folder_name_to_id "--Hello,   World!!" = "hello-world".
Proof. reflexivity. Qed.

Example slug_of_nothing : folder_name_to_id "?!" = EmptyString.
Proof. reflexivity. Qed.

Example escaped_text :
  convert_markdown_to_js_string "a`b${x}\c" = "a\`b\${x}\\c".
Proof. reflexivity. Qed.

Example replace_does_not_overlap : replace "aa" "b" "aaaaa" = "bba".
Proof. reflexivity. Qed.

Example dumped_list :
  json_dumps (PList [PStr ("a" ++ nl); PInt (-3); PNone])
  = "[" ++ dquote ++ "a\n" ++ dquote ++ ", -3, null]".
Proof. reflexivity. Qed.

Example converted_hello :
  convert_exercise "Hello World" Samples.hello
  = ([],
     Ok {| id := "hello-world";
           title := PStr "Hello";
           description := "Say hello.";
           solution := "echo hello";
           testCases :=
             [{| arguments := PList [];
                 expectedOutput := PStr "hello";
                 expectedExitCode := PInt 0;
                 input := [] |}] |}).
Proof. reflexivity. Qed.

Example literal_with_input :
  render_test_case
    {| arguments := PList [PStr "-n"];
       expectedOutput := PStr "3";
       expectedExitCode := PInt 0;
       input := ["1"; "2"] |}
  = "            {" ++ nl
    ++ "                arguments: [" ++ dquote ++ "-n" ++ dquote ++ "]," ++ nl
    ++ "                expectedOutput: " ++ dquote ++ "3" ++ dquote ++ "," ++ nl
    ++ "                expectedExitCode: 0," ++ nl
    ++ "                input: [" ++ dquote ++ "1" ++ dquote ++ ", "
    ++ dquote ++ "2" ++ dquote ++ "]" ++ nl
    ++ "            }," ++ nl.
Proof. reflexivity. Qed.

Example batch_of_three :
  option_map stdout
    (main [Directory "hello" Samples.hello;
           RegularFile "README.md";
           Directory "bad" Samples.broken_config;
           Directory "broken" Samples.broken_suite])
  = Some
      ["Converted: Hello (1 test cases)";
       "Error converting bad: Expecting value: line 1 column 1 (char 0)";
       "Warning: Could not parse YAML for broken: "
         ++ "mapping values are not allowed here";
       "Converted: Broken (0 test cases)";
       nl ++ "Generated exercises-data.js with 2 exercises";
       nl ++ "Summary:";
       "- Broken: 0 test cases";
       "- Hello: 1 test cases (with input)"].
Proof. reflexivity. Qed.

End Examples.

(** ** Strings *)

Module StrFacts.

Lemma app_nil_r s : s ++ EmptyString = s.
Proof. induction s as [|c s IH]; simpl; congruence. Qed.

Lemma app_assoc s t u : (s ++ t) ++ u = s ++ t ++ u.
Proof. induction s as [|c s IH]; simpl; congruence. Qed.

Lemma forallb_app p s t :
  Str.forallb p (s ++ t) = (Str.forallb p s && Str.forallb p t)%bool.
Proof.
  induction s as [|c s IH]; simpl; [reflexivity|].
  rewrite IH. apply andb_assoc.
Qed.

Lemma existsb_app p s t :
  Str.existsb p (s ++ t) = (Str.existsb p s || Str.existsb p t)%bool.
Proof.
  induction s as [|c s IH]; simpl; [reflexivity|].
  rewrite IH. apply orb_assoc.
Qed.

Lemma existsb_forallb p s :
  Str.existsb p s = negb (Str.forallb (fun c => negb (p c)) s).
Proof.
  induction s as [|c s IH]; simpl; [reflexivity|].
  rewrite IH. destruct (p c); reflexivity.
Qed.

Lemma forallb_ext p q s :
  (forall c, p c = q c) -> Str.forallb p s = Str.forallb q s.
Proof.
  intros E. induction s as [|c s IH]; simpl; [reflexivity|].
  now rewrite E, IH.
Qed.

Lemma forallb_map p f s :
  Str.forallb p (Str.map f s) = Str.forallb (fun c => p (f c)) s.
Proof. induction s as [|c s IH]; simpl; congruence. Qed.

(** What [drop_while] leaves does not begin with a character in [p]. *)
Lemma drop_while_head p s c t : Str.drop_while p s = String c t -> p c = false.
Proof.
  induction s as [|d s IH]; simpl; [discriminate|].
  destruct (p d) eqn:E; [exact IH|].
  intros [= -> _]. exact E.
Qed.

Lemma drop_while_all p s :
  Str.drop_while p s = EmptyString <-> Str.forallb p s = true.
Proof.
  induction s as [|d s IH]; simpl; [tauto|].
  destruct (p d); simpl; [exact IH|].
  split; discriminate.
Qed.


Lemma forallb_drop_while p q s :
  Str.forallb q s = true -> Str.forallb q (Str.drop_while p s) = true.
Proof.
  induction s as [|d s IH]; simpl; [reflexivity|].
  intros H. apply andb_true_iff in H as [Hd Hs].
  destruct (p d); simpl; [auto|].
  now rewrite Hd, Hs.
Qed.


End StrFacts.

(** ** Characters *)

Module CharFacts.

Ltac all_chars c :=
  destruct c as [[] [] [] [] [] [] [] []]; vm_compute; try reflexivity;
  try discriminate; auto.


(** [lower] leaves no capital of the ASCII range. *)
Lemma alnum_after_lower c :
  Char.is_alnum (Char.lower c) = negb (Char.not_lower_alnum (Char.lower c)).
Proof. all_chars c. Qed.

Lemma dash_in_class : Char.not_lower_alnum "-" = true.
Proof. reflexivity. Qed.

End CharFacts.

(** ** The slug *)

Module Slug.

Section Runs.

Variable p : ascii -> bool.

Definition tagged_text (repl : string) (run : bool * string) : string :=
  if fst run then repl else snd run.

Definition replaced (repl s : string) : string :=
  Str.flatten (map (tagged_text repl) (runs p s)).

Lemma runs_head c s :
  exists r rest, runs p (String c s) = (p c, String c r) :: rest.
Proof.
  simpl. destruct (runs p s) as [|[b r] rest]; [eauto|].
  destruct (Bool.eqb b (p c)) eqn:E; [|eauto].
  apply eqb_prop in E. subst b. eauto.
Qed.

(** The runs put together give the string back. *)
Lemma runs_flatten s : Str.flatten (map snd (runs p s)) = s.
Proof.
  induction s as [|c s IH]; [reflexivity|].
  simpl. destruct (runs p s) as [|[b r] rest].
  - simpl in *. now subst s.
  - destruct (Bool.eqb b (p c)); simpl in *; now subst s.
Qed.

(** Each run is not empty and holds characters of one kind, its tag. *)
Lemma runs_uniform s :
  Forall (fun run => snd run <> EmptyString /\
                     Str.forallb (fun c => Bool.eqb (p c) (fst run)) (snd run) = true)
         (runs p s).
Proof.
  induction s as [|c s IH]; [constructor|].
  simpl. destruct (runs p s) as [|[b r] rest].
  - constructor; [|constructor]. simpl. rewrite eqb_reflx. split; [discriminate|reflexivity].
  - inversion IH as [|? ? [Hne Hall] Hrest]; subst.
    destruct (Bool.eqb b (p c)) eqn:E.
    + constructor; [|assumption]. simpl in *.
      apply eqb_prop in E. subst b. rewrite eqb_reflx, Hall.
      split; [discriminate|reflexivity].
    + constructor; [|assumption]. simpl. rewrite eqb_reflx.
      split; [discriminate|reflexivity].
Qed.

(** The runs are maximal: two neighbours are of different kinds. *)
Fixpoint alternating (l : list (bool * string)) : bool :=
  match l with
  | a :: (b :: _) as l' => (negb (Bool.eqb (fst a) (fst b)) && alternating l')%bool
  | _ => true
  end.

Lemma runs_alternating s : alternating (runs p s) = true.
Proof.
  induction s as [|c s IH]; [reflexivity|].
  simpl. destruct (runs p s) as [|[b r] rest]; [reflexivity|].
  destruct (Bool.eqb b (p c)) eqn:E.
  - destruct rest as [|[b' r'] rest]; [reflexivity|].
    simpl in *. exact IH.
  - change (alternating ((p c, String c EmptyString) :: (b, r) :: rest))
      with (negb (Bool.eqb (p c) b) && alternating ((b, r) :: rest))%bool.
    rewrite IH. destruct b, (p c); simpl in *; congruence.
Qed.

Lemma replaced_keep repl c s :
  p c = false -> replaced repl (String c s) = String c (replaced repl s).
Proof.
  intros Hc. unfold replaced. simpl.
  destruct (runs p s) as [|[b r] rest] eqn:R.
  - simpl. unfold tagged_text. simpl. now rewrite Hc.
  - rewrite Hc. destruct b; simpl; unfold tagged_text; simpl; reflexivity.
Qed.

Lemma replaced_match repl c s :
  p c = true ->
  replaced repl (String c s) = repl ++ replaced repl (Str.drop_while p s).
Proof.
  revert c. induction s as [|d s IH]; intros c Hc.
  - unfold replaced. simpl. unfold tagged_text. simpl. now rewrite Hc.
  - simpl Str.drop_while. destruct (p d) eqn:Hd.
    + rewrite <- (IH d Hd).
      destruct (runs_head d s) as (r & rest & R).
      unfold replaced. change (runs p (String c (String d s)))
        with (match runs p (String d s) with
              | (b, r) :: rest =>
                  if Bool.eqb b (p c) then (b, String c r) :: rest
                  else (p c, String c EmptyString) :: (b, r) :: rest
              | [] => [(p c, String c EmptyString)]
              end).
      rewrite R, Hd, Hc. simpl. reflexivity.
    + destruct (runs_head d s) as (r & rest & R).
      unfold replaced. change (runs p (String c (String d s)))
        with (match runs p (String d s) with
              | (b, r) :: rest =>
                  if Bool.eqb b (p c) then (b, String c r) :: rest
                  else (p c, String c EmptyString) :: (b, r) :: rest
              | [] => [(p c, String c EmptyString)]
              end).
      rewrite R, Hd, Hc. simpl. unfold tagged_text at 1. simpl. reflexivity.
Qed.

(** [re.sub] with a pattern [[class]+] replaces each maximal run. *)
Lemma re_sub_plus_runs repl s : re_sub_plus p repl s = replaced repl s.
Proof.
  funelim (re_sub_plus p repl s).
  - reflexivity.
  - rewrite replaced_match by assumption. now f_equal.
  - rewrite replaced_keep by assumption. now f_equal.
Qed.

End Runs.

End Slug.

Module SlugFacts.

Import Slug.

Lemma runs_ext p q s :
  Str.forallb (fun c => Bool.eqb (p c) (q c)) s = true -> runs p s = runs q s.
Proof.
  induction s as [|c s IH]; [reflexivity|].
  simpl. intros H. apply andb_true_iff in H as [Hc Hs].
  apply eqb_prop in Hc. rewrite (IH Hs), Hc. reflexivity.
Qed.

Fixpoint no_double_dash (s : string) : bool :=
  match s with
  | String a (String b _ as s') =>
      (negb (Ascii.eqb a "-" && Ascii.eqb b "-") && no_double_dash s')%bool
  | _ => true
  end.

Lemma no_double_dash_tail c s :
  no_double_dash (String c s) = true -> no_double_dash s = true.
Proof.
  destruct s as [|d s]; [reflexivity|].
  intros H. change (no_double_dash (String c (String d s)))
    with (negb (Ascii.eqb c "-" && Ascii.eqb d "-")
          && no_double_dash (String d s))%bool in H.
  now apply andb_true_iff in H as [_ H].
Qed.

Lemma no_double_dash_cons c s :
  no_double_dash s = true ->
  (Ascii.eqb c "-" = false \/
   match s with String d _ => Ascii.eqb d "-" = false | EmptyString => True end) ->
  no_double_dash (String c s) = true.
Proof.
  intros Hs Hc. destruct s as [|d s]; [reflexivity|].
  change (no_double_dash (String c (String d s)))
    with (negb (Ascii.eqb c "-" && Ascii.eqb d "-")
          && no_double_dash (String d s))%bool.
  rewrite Hs. destruct Hc as [-> | ->]; [reflexivity|].
  now rewrite andb_false_r.
Qed.

Section Dash.

Variable p : ascii -> bool.
Hypothesis dash_in_p : p "-" = true.

Lemma outside_p_not_dash c : p c = false -> Ascii.eqb c "-" = false.
Proof.
  intros Hc. destruct (Ascii.eqb_spec c "-") as [->|]; congruence.
Qed.

Lemma re_sub_plus_no_double_dash s :
  no_double_dash (re_sub_plus p "-" s) = true.
Proof.
  remember "-" as repl eqn:Erepl.
  funelim (re_sub_plus p repl s).
  - reflexivity.
  - change ("-" ++ re_sub_plus p "-" (Str.drop_while p s'))
      with (String "-" (re_sub_plus p "-" (Str.drop_while p s'))).
    apply no_double_dash_cons; [auto|]. right.
    destruct (Str.drop_while p s') as [|d t] eqn:D.
    + now simp re_sub_plus.
    + pose proof (StrFacts.drop_while_head _ _ _ _ D) as Hd.
      simp re_sub_plus. rewrite Hd. simpl.
      now apply outside_p_not_dash.
  - apply no_double_dash_cons; [auto|]. left.
    now apply outside_p_not_dash.
Qed.

End Dash.

Definition is_dash (c : ascii) : bool := Str.existsb (Ascii.eqb c) "-".

Lemma is_dash_eqb c : is_dash c = Ascii.eqb c "-".
Proof. unfold is_dash. simpl. apply orb_false_r. Qed.

Lemma lstrip_one_dash s :
  no_double_dash s = true ->
  Str.lstrip_by is_dash s = drop_first_separator s.
Proof.
  unfold Str.lstrip_by. destruct s as [|c s]; [reflexivity|].
  intros H. simpl. rewrite is_dash_eqb.
  destruct (Ascii.eqb c "-") eqn:Ec; [|reflexivity].
  destruct s as [|d s]; [reflexivity|].
  change (no_double_dash (String c (String d s)))
    with (negb (Ascii.eqb c "-" && Ascii.eqb d "-")
          && no_double_dash (String d s))%bool in H.
  rewrite Ec in H. simpl in H. apply andb_true_iff in H as [Hd _].
  simpl. rewrite is_dash_eqb. now destruct (Ascii.eqb d "-").
Qed.

Lemma rstrip_one_dash s :
  no_double_dash s = true ->
  Str.rstrip_by is_dash s = drop_last_separator s.
Proof.
  induction s as [|c s IH]; [reflexivity|].
  intros H. pose proof (no_double_dash_tail _ _ H) as Hs.
  simpl. rewrite (IH Hs), is_dash_eqb.
  destruct s as [|d s]; [reflexivity|].
  destruct (drop_last_separator (String d s)) eqn:L; [|reflexivity].
  (* the tail is one separator, so [c] is none *)
  assert (Ascii.eqb d "-" = true) as Hd.
  { destruct s; simpl in L; [|discriminate].
    now destruct (Ascii.eqb d "-"). }
  change (no_double_dash (String c (String d s)))
    with (negb (Ascii.eqb c "-" && Ascii.eqb d "-")
          && no_double_dash (String d s))%bool in H.
  rewrite Hd, andb_true_r in H. apply andb_true_iff in H as [Hc _].
  destruct (Ascii.eqb c "-"); [discriminate|].
  destruct s; simpl in L; [|discriminate].
  now rewrite Hd in L.
Qed.

Lemma drop_first_no_double_dash s :
  no_double_dash s = true -> no_double_dash (drop_first_separator s) = true.
Proof.
  destruct s as [|c s]; [reflexivity|].
  intros H. simpl. destruct (Ascii.eqb c "-"); [|exact H].
  exact (no_double_dash_tail _ _ H).
Qed.

Lemma strip_dashes s :
  no_double_dash s = true ->
  Str.strip_chars "-" s = drop_last_separator (drop_first_separator s).
Proof.
  intros H. unfold Str.strip_chars, Str.strip_by.
  change (fun c => Str.existsb (Ascii.eqb c) "-") with is_dash.
  rewrite lstrip_one_dash by assumption.
  apply rstrip_one_dash. now apply drop_first_no_double_dash.
Qed.

Lemma lowered_class D :
  Str.forallb
    (fun c => Bool.eqb (Char.not_lower_alnum c) (is_separator_run c))
    (Str.lower D) = true.
Proof.
  unfold Str.lower. rewrite StrFacts.forallb_map.
  induction D as [|c D IH]; [reflexivity|].
  simpl. rewrite IH, andb_true_r. unfold is_separator_run.
  rewrite CharFacts.alnum_after_lower, negb_involutive.
  apply eqb_reflx.
Qed.

End SlugFacts.

(** C1. For every directory name [D] the id is [D] in lower case with each
    maximal run of characters that are not alphanumeric replaced by one
    ["-"] and the separators at both ends dropped; ["My Exercise #1"] gives
    ["my-exercise-1"].  Alphanumeric is read as the letters and digits of
    the ASCII range, the characters the pattern keeps. *)
Theorem folder_name_to_id_in_words :
  (forall D : string, folder_name_to_id D = slug_in_words D) /\
  folder_name_to_id "My Exercise #1" = "my-exercise-1".
Proof.
  split; [|reflexivity].
  intros D. unfold folder_name_to_id, slug_in_words.
  rewrite SlugFacts.strip_dashes
    by (apply SlugFacts.re_sub_plus_no_double_dash; reflexivity).
  rewrite Slug.re_sub_plus_runs. unfold Slug.replaced.
  rewrite (SlugFacts.runs_ext _ _ _ (SlugFacts.lowered_class D)).
  reflexivity.
Qed.

Module EmptySlug.


Section AllDashes.

Variable p : ascii -> bool.
Hypothesis dash_in_p : p "-" = true.


End AllDashes.

End EmptySlug.



(** ** Escaping for a template literal *)

Module Escaping.

#[local] Arguments Ascii.eqb : simpl nomatch.

(** [replace] with a pattern of one character works character by character. *)
Fixpoint subst_char (o : ascii) (new s : string) : string :=
  match s with
  | EmptyString => EmptyString
  | String c s' =>
      (if Ascii.eqb o c then new else String c EmptyString) ++ subst_char o new s'
  end.

(** The first two passes together. *)
Definition protect (c : ascii) : string :=
  if Ascii.eqb c "092" then "\\"
  else if Ascii.eqb c "`" then "\`"
  else String c EmptyString.

Fixpoint protect_all (s : string) : string :=
  match s with
  | EmptyString => EmptyString
  | String c s' => protect c ++ protect_all s'
  end.

(** The three passes as one scan from the left. *)
Fixpoint escape_scan (s : string) : string :=
  match s with
  | EmptyString => EmptyString
  | String c s' =>
      if (Ascii.eqb c "$" && Str.starts_with "{" s')%bool
      then "\$" ++ escape_scan s'
      else protect c ++ escape_scan s'
  end.

Lemma replace_cons o old' new c s' :
  replace (String o old') new (String c s') =
  if (Ascii.eqb o c && Str.starts_with old' s')%bool
  then new ++ replace (String o old') new (Str.drop (String.length old') s')
  else String c (replace (String o old') new s').
Proof.
  simp replace.
  destruct (Ascii.eqb o c && Str.starts_with old' s')%bool; reflexivity.
Qed.

Lemma replace_one_char o new s :
  replace (String o EmptyString) new s = subst_char o new s.
Proof.
  induction s as [|c s IH]; [now simp replace|].
  rewrite replace_cons. simpl. rewrite andb_true_r, IH.
  destruct (Ascii.eqb o c); reflexivity.
Qed.

Lemma subst_char_app o new s t :
  subst_char o new (s ++ t) = subst_char o new s ++ subst_char o new t.
Proof.
  induction s as [|c s IH]; [reflexivity|].
  simpl. now rewrite IH, StrFacts.app_assoc.
Qed.

Lemma first_two_passes s :
  subst_char "`" "\`" (subst_char "092" "\\" s) = protect_all s.
Proof.
  induction s as [|c s IH]; [reflexivity|].
  simpl. rewrite subst_char_app, IH. f_equal.
  unfold protect. rewrite (Ascii.eqb_sym c "092"), (Ascii.eqb_sym c "`").
  destruct (Ascii.eqb "092" c) eqn:E1; [reflexivity|].
  simpl. destruct (Ascii.eqb "`" c); reflexivity.
Qed.

Lemma protect_all_brace s :
  Str.starts_with "{" (protect_all s) = Str.starts_with "{" s.
Proof.
  destruct s as [|c s]; [reflexivity|].
  simpl. unfold protect.
  destruct (Ascii.eqb_spec c "092") as [->|]; [reflexivity|].
  destruct (Ascii.eqb_spec c "`") as [->|]; reflexivity.
Qed.

Lemma escape_scan_cons c s :
  escape_scan (String c s) =
  if (Ascii.eqb c "$" && Str.starts_with "{" s)%bool
  then "\$" ++ escape_scan s
  else protect c ++ escape_scan s.
Proof. reflexivity. Qed.

Lemma protect_all_cons c s :
  protect_all (String c s) = protect c ++ protect_all s.
Proof. reflexivity. Qed.

Lemma third_pass_bounded n : forall s,
  String.length s < n ->
  replace "${" "\${" (protect_all s) = escape_scan s.
Proof.
  induction n as [|n IH]; intros s Hn; [lia|].
  destruct s as [|c s]; [now simp replace|].
  simpl in Hn. rewrite escape_scan_cons, protect_all_cons.
  destruct (Ascii.eqb_spec c "$") as [->|Hdollar].
  - (* a dollar sign: the first two passes leave it alone *)
    change (protect "$" ++ protect_all s) with (String "$" (protect_all s)).
    rewrite replace_cons, protect_all_brace, Ascii.eqb_refl.
    cbn [andb]. destruct (Str.starts_with "{" s) eqn:B.
    + destruct s as [|d s]; [discriminate|].
      cbn [Str.starts_with] in B. rewrite andb_true_r in B.
      apply Ascii.eqb_eq in B. subst d.
      rewrite protect_all_cons.
      change (Str.drop (String.length "{") (protect "{" ++ protect_all s))
        with (protect_all s).
      rewrite IH by (simpl in Hn; lia).
      rewrite escape_scan_cons. reflexivity.
    + rewrite IH by lia. reflexivity.
  - cbn [andb]. unfold protect.
    destruct (Ascii.eqb_spec c "092") as [->|Hback].
    + change ("\\" ++ protect_all s)
        with (String "092" (String "092" (protect_all s))).
      rewrite !replace_cons. cbn [andb Ascii.eqb]. simpl Ascii.eqb.
      cbn [andb]. rewrite IH by lia. reflexivity.
    + destruct (Ascii.eqb_spec c "`") as [->|Htick].
      * change ("\`" ++ protect_all s)
          with (String "092" (String "`" (protect_all s))).
        rewrite !replace_cons. simpl Ascii.eqb.
        cbn [andb]. rewrite IH by lia. reflexivity.
      * change (String c EmptyString ++ protect_all s)
          with (String c (protect_all s)).
        rewrite replace_cons.
        destruct (Ascii.eqb_spec "$" c) as [<-|_]; [congruence|].
        cbn [andb]. rewrite IH by lia. reflexivity.
Qed.

(** The escaping of the script is the scan. *)
Lemma convert_markdown_to_js_string_scan s :
  convert_markdown_to_js_string s = escape_scan s.
Proof.
  unfold convert_markdown_to_js_string.
  rewrite !replace_one_char, first_two_passes.
  apply (third_pass_bounded (S (String.length s))). lia.
Qed.

End Escaping.

Module ReadBack.

#[local] Arguments Ascii.eqb : simpl nomatch.

Import Escaping.

Definition no_carriage_return (s : string) : Prop :=
  Str.existsb (Ascii.eqb "013") s = false.

Lemma template_chars_plain c src :
  Ascii.eqb c "`" = false -> Ascii.eqb c "$" = false ->
  Ascii.eqb c "013" = false -> Ascii.eqb c "092" = false ->
  template_chars (String c src) = cons_cooked c (template_chars src).
Proof.
  intros H1 H2 H3 H4. cbn [template_chars].
  now rewrite H1, H2, H3, H4.
Qed.

Lemma template_chars_escaped e src :
  e = "`"%char \/ e = "092"%char \/ e = "$"%char ->
  template_chars (String "092" (String e src))
  = cons_cooked e (template_chars src).
Proof. intros [->|[->| ->]]; reflexivity. Qed.

Lemma template_chars_dollar d src :
  Ascii.eqb d "{" = false ->
  template_chars (String "$" (String d src))
  = cons_cooked "$" (template_chars (String d src)).
Proof.
  intros H. cbn [template_chars]. simpl (Ascii.eqb "$" _).
  cbv iota. now rewrite H.
Qed.

(** Behind a dollar sign that is left alone comes no opening brace. *)
Lemma escape_scan_head s rest :
  Str.starts_with "{" s = false ->
  exists d t, escape_scan s ++ String "`" rest = String d t
              /\ Ascii.eqb d "{" = false.
Proof.
  destruct s as [|c s]; [simpl; eauto|].
  intros H. cbn [Str.starts_with] in H. rewrite andb_true_r in H.
  rewrite escape_scan_cons.
  destruct (Ascii.eqb c "$" && Str.starts_with "{" s)%bool.
  - simpl. eauto.
  - unfold protect.
    destruct (Ascii.eqb_spec c "092") as [->|]; [simpl; eauto|].
    destruct (Ascii.eqb_spec c "`") as [->|]; [simpl; eauto|].
    simpl. exists c. eexists. split; [reflexivity|].
    now rewrite Ascii.eqb_sym.
Qed.

(** Reading the scan back gives the text, and stops at the backtick that
    closes the literal. *)
Lemma template_chars_escape_scan s rest :
  no_carriage_return s ->
  template_chars (escape_scan s ++ String "`" rest) = Some (s, rest).
Proof.
  unfold no_carriage_return.
  induction s as [|c s IH]; [reflexivity|].
  intros H. cbn [Str.existsb] in H. apply orb_false_iff in H as [Hcr Hs].
  specialize (IH Hs). rewrite escape_scan_cons.
  destruct (Ascii.eqb_spec c "$") as [->|Hdollar].
  - cbn [andb]. destruct (Str.starts_with "{" s) eqn:B.
    + change (("\$" ++ escape_scan s) ++ String "`" rest)
        with (String "092" (String "$" (escape_scan s ++ String "`" rest))).
      rewrite template_chars_escaped by auto. now rewrite IH.
    + change ((protect "$" ++ escape_scan s) ++ String "`" rest)
        with (String "$" (escape_scan s ++ String "`" rest)).
      destruct (escape_scan_head s rest B) as (d & t & E & Hd).
      rewrite E in *. rewrite template_chars_dollar by assumption.
      now rewrite IH.
  - cbn [andb]. unfold protect.
    destruct (Ascii.eqb_spec c "092") as [->|Hback].
    + change (("\\" ++ escape_scan s) ++ String "`" rest)
        with (String "092" (String "092" (escape_scan s ++ String "`" rest))).
      rewrite template_chars_escaped by auto. now rewrite IH.
    + destruct (Ascii.eqb_spec c "`") as [->|Htick].
      * change (("\`" ++ escape_scan s) ++ String "`" rest)
          with (String "092" (String "`" (escape_scan s ++ String "`" rest))).
        rewrite template_chars_escaped by auto. now rewrite IH.
      * change ((String c EmptyString ++ escape_scan s) ++ String "`" rest)
          with (String c (escape_scan s ++ String "`" rest)).
        rewrite template_chars_plain, IH; try reflexivity.
        -- now apply Ascii.eqb_neq.
        -- now apply Ascii.eqb_neq.
        -- now rewrite Ascii.eqb_sym.
        -- now apply Ascii.eqb_neq.
Qed.

Lemma universal_newlines_bounded n : forall raw,
  String.length raw < n -> no_carriage_return (universal_newlines raw).
Proof.
  unfold no_carriage_return.
  induction n as [|n IH]; intros raw Hn; [lia|].
  destruct raw as [|c rest]; [reflexivity|].
  simpl in Hn. cbn [universal_newlines].
  destruct (Ascii.eqb_spec c "013") as [->|Hc].
  - cbn [Str.existsb]. simpl (Ascii.eqb "013" "010"). cbn [orb].
    destruct rest as [|d rest']; [reflexivity|].
    simpl in Hn. destruct (Ascii.eqb d "010").
    + apply IH. lia.
    + apply IH. simpl. lia.
  - cbn [Str.existsb]. rewrite IH by lia.
    rewrite Ascii.eqb_sym. apply Ascii.eqb_neq in Hc. now rewrite Hc.
Qed.

(** What [read_file_safe] returns holds no carriage return. *)
Lemma read_file_safe_no_carriage_return file s :
  read_file_safe file = Ok s -> no_carriage_return s.
Proof.
  destruct file as [raw|e]; simpl.
  - intros [= <-].
    apply (universal_newlines_bounded (S (String.length raw))). lia.
  - destruct (is_missing_or_undecodable e); [|discriminate].
    now intros [= <-].
Qed.

Lemma template_literal_escaped s rest :
  no_carriage_return s ->
  template_literal ("`" ++ convert_markdown_to_js_string s ++ "`" ++ rest)
  = Some (s, rest).
Proof.
  intros H. rewrite convert_markdown_to_js_string_scan.
  change (template_literal ("`" ++ escape_scan s ++ "`" ++ rest))
    with (template_chars (escape_scan s ++ String "`" rest)).
  now apply template_chars_escape_scan.
Qed.

End ReadBack.

(** C2. The escaping replaces backslashes first, then backticks, then the
    sequence ["${"], and what JavaScript reads back from the backtick
    delimited text is the string itself, up to the closing backtick the
    script wrote.  This holds for every string without carriage return, and
    so for every description and solution, which [read_file_safe] reads in
    text mode. *)
Theorem escaping_reads_back :
  (forall s, convert_markdown_to_js_string s
             = replace "${" "\${" (replace "`" "\`" (replace "\" "\\" s))) /\
  (forall s rest,
      Str.existsb (Ascii.eqb "013") s = false ->
      template_literal ("`" ++ convert_markdown_to_js_string s ++ "`" ++ rest)
      = Some (s, rest)) /\
  (forall file s rest,
      read_file_safe file = Ok s ->
      template_literal ("`" ++ convert_markdown_to_js_string s ++ "`" ++ rest)
      = Some (s, rest)).
Proof.
  split; [reflexivity|]. split.
  - intros s rest H. now apply ReadBack.template_literal_escaped.
  - intros file s rest H. apply ReadBack.template_literal_escaped.
    eapply ReadBack.read_file_safe_no_carriage_return; eassumption.
Qed.

Lemma escaping_reads_back_witness :
  template_literal
    ("`" ++ convert_markdown_to_js_string "Run `ls ${x}` in C:\tmp"
         ++ "`" ++ ",")
  = Some ("Run `ls ${x}` in C:\tmp", ",").
Proof.
  apply (proj1 (proj2 escaping_reads_back)). reflexivity.
Defined.

(** ** Test cases *)

Module StripSplit.

Fixpoint take_while (p : ascii -> bool) (s : string) : string :=
  match s with
  | EmptyString => EmptyString
  | String c s' => if p c then String c (take_while p s') else EmptyString
  end.

Lemma take_drop_while p s : take_while p s ++ Str.drop_while p s = s.
Proof.
  induction s as [|c s IH]; [reflexivity|].
  simpl. destruct (p c); simpl; congruence.
Qed.

Lemma take_while_all p s : Str.forallb p (take_while p s) = true.
Proof.
  induction s as [|c s IH]; [reflexivity|].
  simpl. destruct (p c) eqn:E; simpl; [|reflexivity].
  now rewrite E.
Qed.

(** [rstrip_by] cuts a suffix of characters in [p]. *)
Lemma rstrip_by_suffix p s :
  exists post, s = Str.rstrip_by p s ++ post /\ Str.forallb p post = true.
Proof.
  induction s as [|c s (post & E & Hpost)]; [exists EmptyString; auto|].
  simpl. destruct (Str.rstrip_by p s) as [|d r] eqn:R.
  - destruct (p c) eqn:Hc.
    + exists (String c s). split; [reflexivity|].
      simpl. rewrite Hc. simpl in E. now subst post.
    + exists post. simpl in *. now subst.
  - exists post. split; [|assumption]. simpl in *. congruence.
Qed.

Fixpoint last_char (s : string) : option ascii :=
  match s with
  | EmptyString => None
  | String c EmptyString => Some c
  | String _ s' => last_char s'
  end.

Lemma rstrip_by_last p s c :
  last_char (Str.rstrip_by p s) = Some c -> p c = false.
Proof.
  induction s as [|d s IH]; [discriminate|].
  simpl. destruct (Str.rstrip_by p s) as [|e r] eqn:R.
  - destruct (p d) eqn:Hd; [discriminate|].
    simpl. now intros [= <-].
  - intros H. apply IH. exact H.
Qed.

Lemma rstrip_by_head p s c t :
  s = String c t -> p c = false ->
  exists t', Str.rstrip_by p s = String c t'.
Proof.
  intros -> Hc. simpl. destruct (Str.rstrip_by p t); [|eauto].
  rewrite Hc. eauto.
Qed.

(** [strip_by] cuts a prefix and a suffix of characters in [p], and what is
    left neither begins nor ends with one. *)
Lemma strip_by_spec p s :
  exists pre post,
    s = pre ++ Str.strip_by p s ++ post /\
    Str.forallb p pre = true /\ Str.forallb p post = true /\
    (forall c t, Str.strip_by p s = String c t -> p c = false) /\
    (forall c, last_char (Str.strip_by p s) = Some c -> p c = false).
Proof.
  unfold Str.strip_by, Str.lstrip_by.
  destruct (rstrip_by_suffix p (Str.drop_while p s)) as (post & E & Hpost).
  exists (take_while p s), post. repeat split.
  - rewrite <- E. symmetry. apply take_drop_while.
  - apply take_while_all.
  - assumption.
  - intros c t H.
    destruct (Str.drop_while p s) as [|d u] eqn:D; [discriminate|].
    pose proof (StrFacts.drop_while_head _ _ _ _ D) as Hd.
    destruct (rstrip_by_head p (String d u) d u eq_refl Hd) as (t' & R).
    rewrite R in H. now injection H as <- _.
  - apply rstrip_by_last.
Qed.

(** The pieces of [split] hold no separator, and joined by it they give the
    string back. *)
Lemma split_not_nil sep s : Str.split sep s <> [].
Proof.
  destruct s as [|c s]; simpl; [discriminate|].
  destruct (Ascii.eqb c sep); [discriminate|].
  destruct (Str.split sep s); discriminate.
Qed.

Lemma split_join sep s :
  Str.join (String sep EmptyString) (Str.split sep s) = s.
Proof.
  induction s as [|c s IH]; [reflexivity|].
  simpl. destruct (Ascii.eqb_spec c sep) as [->|Hc].
  - pose proof (split_not_nil sep s).
    destruct (Str.split sep s) as [|h t]; [contradiction|].
    simpl in *. now rewrite IH.
  - destruct (Str.split sep s) as [|h [|h' t]]; simpl in *; now subst s.
Qed.

Lemma split_pieces sep s :
  Forall (fun piece => Str.existsb (Ascii.eqb sep) piece = false)
         (Str.split sep s).
Proof.
  induction s as [|c s IH]; [repeat constructor|].
  simpl. destruct (Ascii.eqb_spec c sep) as [->|Hc].
  - constructor; [reflexivity|assumption].
  - destruct (Str.split sep s) as [|h t].
    + constructor; [|constructor]. simpl.
      rewrite Ascii.eqb_sym. apply Ascii.eqb_neq in Hc. now rewrite Hc.
    + inversion IH as [|? ? Hh Ht]; subst. constructor; [|assumption].
      simpl. rewrite Hh. rewrite Ascii.eqb_sym.
      apply Ascii.eqb_neq in Hc. now rewrite Hc.
Qed.

End StripSplit.

(** C3, as the specification words it, fails: the script trims at both
    ends, so a field that begins with a blank loses it, and it tests the
    field before trimming, so a field of blanks gives one empty line. *)
Lemma input_lines_not_as_worded :
  (input_lines_of (entry_with_stdin (Some " a")) = Ok ["a"] /\
   input_in_words (Some " a") = [" a"]) /\
  (input_lines_of (entry_with_stdin (Some " ")) = Ok [EmptyString] /\
   input_in_words (Some " ") = []) /\
  input_lines_of (entry_with_stdin (Some " a"))
  <> Ok (input_in_words (Some " a")).
Proof.
  repeat split; try reflexivity. discriminate.
Qed.

(** C3, amended. For a test-case entry that is a mapping: without a [stdin]
    field, or with one that is empty (falsy), the input is the empty
    sequence; with a [stdin] string that is not empty, the input is the
    string trimmed of whitespace at both ends and split at line feeds, one
    element per line.  The record carries these lines, and the field
    ["a\nb\n"] gives [["a"; "b"]]. *)
Theorem input_lines_from_stdin :
  (forall d, lookup "stdin" d = None -> input_lines_of (PDict d) = Ok []) /\
  (forall d v,
      lookup "stdin" d = Some v -> py_truthy v = false ->
      input_lines_of (PDict d) = Ok []) /\
  (forall d s,
      lookup "stdin" d = Some (PStr s) -> s <> EmptyString ->
      input_lines_of (PDict d) = Ok (Str.split "010" (Str.strip s))) /\
  (forall entry tc,
      convert_test_case entry = Ok tc -> input_lines_of entry = Ok (input tc)) /\
  input_lines_of (entry_with_stdin (Some ("a" ++ nl ++ "b" ++ nl)))
  = Ok ["a"; "b"].
Proof.
  repeat split.
  - intros d H. unfold input_lines_of. simpl. now rewrite H.
  - intros d v H Hv. unfold input_lines_of. simpl. rewrite H. simpl.
    now rewrite Hv.
  - intros d s H Hs. unfold input_lines_of. simpl. rewrite H. simpl.
    apply String.eqb_neq in Hs. now rewrite Hs.
  - intros entry tc H. unfold convert_test_case in H.
    destruct (input_lines_of entry) as [lines|e]; [|discriminate].
    simpl in H.
    destruct (py_get entry "arguments" _); [|discriminate].
    destruct (py_get entry "stdout" _); [|discriminate].
    destruct (py_get entry "exit_code" _); [|discriminate].
    simpl in H. now injection H as <-.
Qed.

Lemma input_lines_from_stdin_witness :
  input_lines_of
    (PDict [("arguments", PList [PStr "-v"]);
            ("stdin", PStr ("  7" ++ nl ++ "8 " ++ nl))])
  = Ok ["7"; "8"].
Proof.
  apply (proj1 (proj2 (proj2 input_lines_from_stdin))
           [("arguments", PList [PStr "-v"]);
            ("stdin", PStr ("  7" ++ nl ++ "8 " ++ nl))]
           ("  7" ++ nl ++ "8 " ++ nl)).
  - reflexivity.
  - discriminate.
Defined.

(** ** Lines of the emitted text *)

Module Lines.

#[local] Arguments Ascii.eqb : simpl nomatch.

Lemma one_line_app s t : one_line s -> one_line t -> one_line (s ++ t).
Proof.
  unfold one_line. intros Hs Ht. now rewrite StrFacts.existsb_app, Hs, Ht.
Qed.

Lemma one_line_join sep l :
  one_line sep -> Forall one_line l -> one_line (Str.join sep l).
Proof.
  intros Hsep H. induction H as [|s l Hs Hl IH]; [reflexivity|].
  destruct l as [|s' l]; [exact Hs|].
  change (Str.join sep (s :: s' :: l)) with (s ++ sep ++ Str.join sep (s' :: l)).
  auto using one_line_app.
Qed.

Lemma one_line_uint d : one_line (NilEmpty.string_of_uint d).
Proof. induction d; unfold one_line in *; simpl; auto. Qed.

Lemma one_line_Z z : one_line (Z_to_string z).
Proof.
  unfold Z_to_string, NilZero.string_of_int, NilZero.string_of_uint.
  destruct (Z.to_int z) as [d|d]; destruct d; try reflexivity;
    try apply (one_line_uint (Decimal.D0 _));
    try (apply (one_line_app "-"); [reflexivity|]);
    try reflexivity; apply one_line_uint.
Qed.

Lemma one_line_json_escape_char c : one_line (json_escape_char c).
Proof. CharFacts.all_chars c. Qed.

Lemma one_line_json_string s : one_line (json_string s).
Proof.
  unfold json_string. apply (one_line_app dquote); [reflexivity|].
  apply one_line_app; [|reflexivity].
  induction s as [|c s IH]; [reflexivity|].
  simpl. apply one_line_app; [apply one_line_json_escape_char|exact IH].
Qed.

Section PyvalInduction.

Variable P : pyval -> Prop.
Hypothesis P_none : P PNone.
Hypothesis P_bool : forall b, P (PBool b).
Hypothesis P_int : forall z, P (PInt z).
Hypothesis P_str : forall s, P (PStr s).
Hypothesis P_list : forall l, Forall P l -> P (PList l).
Hypothesis P_dict : forall d, Forall (fun kv => P (snd kv)) d -> P (PDict d).

Fixpoint pyval_nested_ind (v : pyval) : P v :=
  match v with
  | PNone => P_none
  | PBool b => P_bool b
  | PInt z => P_int z
  | PStr s => P_str s
  | PList l =>
      P_list l
        ((fix all (l : list pyval) : Forall P l :=
            match l with
            | [] => Forall_nil P
            | x :: l' => Forall_cons x (pyval_nested_ind x) (all l')
            end) l)
  | PDict d =>
      P_dict d
        ((fix all (d : list (string * pyval))
            : Forall (fun kv => P (snd kv)) d :=
            match d with
            | [] => Forall_nil _
            | kv :: d' =>
                Forall_cons (P := fun kv => P (snd kv)) kv
                  (pyval_nested_ind (snd kv)) (all d')
            end) d)
  end.

End PyvalInduction.

(** [json.dumps] writes no line feed: inside a string it is escaped. *)
Lemma one_line_json_dumps v : one_line (json_dumps v).
Proof.
  induction v as [| b | z | s | l IH | d IH] using pyval_nested_ind.
  - reflexivity.
  - destruct b; reflexivity.
  - apply one_line_Z.
  - apply one_line_json_string.
  - simpl. apply (one_line_app "["); [reflexivity|].
    apply one_line_app; [|reflexivity].
    apply one_line_join; [reflexivity|].
    induction IH; simpl; constructor; auto.
  - simpl. apply (one_line_app "{"); [reflexivity|].
    apply one_line_app; [|reflexivity].
    apply one_line_join; [reflexivity|].
    induction IH as [|kv d Hkv Hd IHd]; simpl; constructor; auto.
    apply one_line_app; [apply one_line_json_string|].
    apply (one_line_app ": "); [reflexivity|exact Hkv].
Qed.

(** Lines joined by line feeds split into the same lines. *)
Lemma split_one_line s : one_line s -> Str.split "010" s = [s].
Proof.
  unfold one_line. induction s as [|c s IH]; [reflexivity|].
  simpl. intros H. apply orb_false_iff in H as [Hc Hs].
  rewrite Ascii.eqb_sym, Hc, (IH Hs). reflexivity.
Qed.

Lemma split_line_then s t :
  one_line s -> Str.split "010" (s ++ nl ++ t) = s :: Str.split "010" t.
Proof.
  unfold one_line. induction s as [|c s IH]; [reflexivity|].
  simpl. intros H. apply orb_false_iff in H as [Hc Hs].
  rewrite Ascii.eqb_sym, Hc. simpl in IH. rewrite (IH Hs). reflexivity.
Qed.

Lemma split_join_lines l :
  l <> [] -> Forall one_line l -> Str.split "010" (Str.join nl l) = l.
Proof.
  intros Hne H. induction H as [|s l Hs Hl IH]; [contradiction|].
  destruct l as [|s' l]; [now apply split_one_line|].
  change (Str.join nl (s :: s' :: l)) with (s ++ nl ++ Str.join nl (s' :: l)).
  rewrite split_line_then by assumption.
  f_equal. apply IH. discriminate.
Qed.

End Lines.

Module TestCaseLiteral.

Import Lines.

Definition test_case_lines (tc : TestCase) : list string :=
  match input tc with
  | [] =>
      ["            {";
       "                arguments: " ++ json_dumps (arguments tc) ++ ",";
       "                expectedOutput: " ++ json_dumps (expectedOutput tc) ++ ",";
       "                expectedExitCode: " ++ py_str (expectedExitCode tc);
       "            },";
       EmptyString]
  | _ =>
      ["            {";
       "                arguments: " ++ json_dumps (arguments tc) ++ ",";
       "                expectedOutput: " ++ json_dumps (expectedOutput tc) ++ ",";
       "                expectedExitCode: " ++ py_str (expectedExitCode tc) ++ ",";
       input_key ++ json_dumps (PList (map PStr (input tc)));
       "            },";
       EmptyString]
  end.

Lemma render_test_case_lines tc :
  render_test_case tc = Str.join nl (test_case_lines tc).
Proof.
  unfold render_test_case, test_case_lines.
  destruct (input tc) as [|line lines];
    cbn [map py_truthy Str.join]; rewrite !StrFacts.app_assoc; reflexivity.
Qed.

Lemma test_case_lines_one_line tc :
  one_line (py_str (expectedExitCode tc)) ->
  Forall one_line (test_case_lines tc).
Proof.
  intros H. unfold test_case_lines.
  destruct (input tc) as [|line lines]; repeat constructor;
    repeat first
      [ apply one_line_json_dumps
      | exact H
      | reflexivity
      | apply one_line_app ].
Qed.

Lemma split_render_test_case tc :
  one_line (py_str (expectedExitCode tc)) ->
  Str.split "010" (render_test_case tc) = test_case_lines tc.
Proof.
  intros H. rewrite render_test_case_lines.
  apply split_join_lines; [|now apply test_case_lines_one_line].
  unfold test_case_lines. destruct (input tc); discriminate.
Qed.

Lemma shows_input_key_lines tc :
  existsb (Str.starts_with input_key) (test_case_lines tc)
  = match input tc with [] => false | _ => true end.
Proof.
  unfold test_case_lines. destruct (input tc); reflexivity.
Qed.

Lemma falsy_stdin_no_input d tc :
  convert_test_case (PDict d) = Ok tc ->
  stdin_absent_or_empty d = true -> input tc = [].
Proof.
  unfold convert_test_case, input_lines_of, stdin_absent_or_empty.
  simpl. destruct (lookup "stdin" d) as [v|]; simpl.
  - intros H Hv. apply negb_true_iff in Hv. rewrite Hv in H.
    simpl in H. now injection H as <-.
  - intros H _. now injection H as <-.
Qed.

End TestCaseLiteral.

(** C4. The literal of a test case is the three fixed pairs, then the
    [input] pair exactly when the input sequence is not empty, then the
    closing brace.  Read line by line, the line with the [input] key is
    there exactly when the sequence is not empty, and it then holds the
    sequence; a test case made from an entry whose [stdin] is absent or
    empty has no such line.  For the reading by lines the exit code is taken
    to print on one line, as every integer does. *)
Theorem input_key_iff_input_nonempty :
  (forall tc,
      render_test_case tc
      = "            {" ++ nl
        ++ "                arguments: " ++ json_dumps (arguments tc) ++ "," ++ nl
        ++ "                expectedOutput: " ++ json_dumps (expectedOutput tc)
        ++ "," ++ nl
        ++ "                expectedExitCode: " ++ py_str (expectedExitCode tc)
        ++ match input tc with
           | [] => EmptyString
           | _ => "," ++ nl ++ "                input: "
                  ++ json_dumps (PList (map PStr (input tc)))
           end
        ++ nl ++ "            }," ++ nl) /\
  (forall tc,
      one_line (py_str (expectedExitCode tc)) ->
      (shows_input_key (render_test_case tc) = true
       <-> input tc <> []) /\
      (input tc <> [] ->
       In (input_key
             ++ json_dumps (PList (map PStr (input tc))))
          (Str.split "010" (render_test_case tc)))) /\
  (forall d tc,
      convert_test_case (PDict d) = Ok tc ->
      stdin_absent_or_empty d = true ->
      one_line (py_str (expectedExitCode tc)) ->
      input tc = [] /\
      shows_input_key (render_test_case tc) = false) /\
  (forall z, one_line (py_str (PInt z))).
Proof.
  assert (forall tc,
      one_line (py_str (expectedExitCode tc)) ->
      shows_input_key (render_test_case tc)
      = match input tc with [] => false | _ => true end) as Shown.
  { intros tc H. unfold shows_input_key.
    rewrite TestCaseLiteral.split_render_test_case by assumption.
    apply TestCaseLiteral.shows_input_key_lines. }
  split; [|split; [|split]].
  - intros tc. unfold render_test_case. now destruct (input tc).
  - intros tc Hcode. repeat split.
    + rewrite Shown by assumption. destruct (input tc); congruence.
    + rewrite Shown by assumption. destruct (input tc); congruence.
    + intros Hne.
      rewrite TestCaseLiteral.split_render_test_case by assumption.
      unfold TestCaseLiteral.test_case_lines.
      destruct (input tc) as [|line lines]; [contradiction|].
      simpl. auto 10.
  - intros d tc Hconv Hstdin Hcode.
    pose proof (TestCaseLiteral.falsy_stdin_no_input d tc Hconv Hstdin) as E.
    split; [exact E|]. rewrite Shown by assumption. now rewrite E.
  - intros z. apply Lines.one_line_Z.
Qed.

Lemma input_key_iff_input_nonempty_witness :
  shows_input_key
    (render_test_case
       {| arguments := PList [PStr "-n"; PInt 2];
          expectedOutput := PStr ("input: 1" ++ nl);
          expectedExitCode := PInt 0;
          input := ["1"; "2"] |}) = true
  <-> ["1"; "2"] <> [].
Proof.
  apply (proj1 (proj1 (proj2 input_key_iff_input_nonempty)
                  {| arguments := PList [PStr "-n"; PInt 2];
                     expectedOutput := PStr ("input: 1" ++ nl);
                     expectedExitCode := PInt 0;
                     input := ["1"; "2"] |} eq_refl)).
Defined.

(** ** The order of the records *)

Module TitleOrder.

Lemma ascii_compare_lt a b : Ascii.compare a b = Lt <-> (N_of_ascii a < N_of_ascii b)%N.
Proof. unfold Ascii.compare. apply N.compare_lt_iff. Qed.

Lemma compare_not_gt_trans s : forall t u,
  String.compare s t <> Gt -> String.compare t u <> Gt ->
  String.compare s u <> Gt.
Proof.
  induction s as [|a s IH]; intros [|b t] [|c u]; simpl; try congruence.
  destruct (Ascii.compare a b) eqn:Eab; try congruence.
  - apply Ascii.compare_eq_iff in Eab. subst b.
    destruct (Ascii.compare a c); try congruence. apply IH.
  - intros _. destruct (Ascii.compare b c) eqn:Ebc; try congruence.
    + apply Ascii.compare_eq_iff in Ebc. subst c. rewrite Eab. congruence.
    + intros _. apply ascii_compare_lt in Eab. apply ascii_compare_lt in Ebc.
      assert (Ascii.compare a c = Lt) as ->
        by (apply ascii_compare_lt; eapply N.lt_trans; eassumption).
      congruence.
Qed.

Lemma leb_trans s t u :
  String.leb s t = true -> String.leb t u = true -> String.leb s u = true.
Proof.
  unfold String.leb. intros H1 H2.
  pose proof (compare_not_gt_trans s t u) as H.
  destruct (String.compare s t), (String.compare t u),
    (String.compare s u); try reflexivity; try discriminate;
    exfalso; apply H; congruence.
Qed.

Lemma ltb_leb s t : String.ltb s t = true -> String.leb s t = true.
Proof.
  unfold String.ltb, String.leb. now destruct (String.compare s t).
Qed.

Lemma not_ltb_leb s t : String.ltb s t = false -> String.leb t s = true.
Proof.
  unfold String.ltb, String.leb. rewrite (String.compare_antisym t s).
  now destruct (String.compare s t).
Qed.

Lemma ltb_irrefl s : String.ltb s s = false.
Proof.
  unfold String.ltb. pose proof (String.compare_antisym s s) as H.
  now destruct (String.compare s s).
Qed.

Lemma title_lt_by_title a b : title_lt a b = true -> by_title a b.
Proof.
  unfold title_lt, by_title, title_text.
  destruct (title a), (title b); try discriminate. apply ltb_leb.
Qed.

Lemma not_title_lt_by_title a b :
  title_is_str a = true -> title_is_str b = true ->
  title_lt a b = false -> by_title b a.
Proof.
  unfold title_lt, by_title, title_text, title_is_str.
  destruct (title a), (title b); try discriminate. intros _ _.
  apply not_ltb_leb.
Qed.

Lemma title_lt_other_title t a b :
  title_lt a b = true -> has_title t a = true -> has_title t b = false.
Proof.
  unfold title_lt, has_title.
  destruct (title a) as [| | |s| |], (title b) as [| | |s'| |];
    try discriminate; try reflexivity.
  intros Hlt Ha. apply String.eqb_eq in Ha. subst s.
  destruct (String.eqb_spec s' t) as [->|]; [|reflexivity].
  now rewrite ltb_irrefl in Hlt.
Qed.

Lemma insert_permutation x l : Permutation (x :: l) (insert_by_title x l).
Proof.
  induction l as [|y l IH]; simpl; [reflexivity|].
  destruct (title_lt y x); [|reflexivity].
  rewrite perm_swap. now constructor.
Qed.

(** The new record goes in front of the records with its title. *)
Lemma insert_stable t x l :
  filter (has_title t) (insert_by_title x l) = filter (has_title t) (x :: l).
Proof.
  induction l as [|y l IH]; [reflexivity|].
  simpl insert_by_title. destruct (title_lt y x) eqn:Hlt; [|reflexivity].
  simpl in *. rewrite IH.
  destruct (has_title t y) eqn:Hy; [|reflexivity].
  now rewrite (title_lt_other_title t y x Hlt Hy).
Qed.

Lemma insert_sorted x l :
  title_is_str x = true -> forallb title_is_str l = true ->
  StronglySorted by_title l -> StronglySorted by_title (insert_by_title x l).
Proof.
  intros Hx Hl Hs. induction Hs as [|y l Hs IH Hy]; simpl.
  - repeat constructor.
  - simpl in Hl. apply andb_true_iff in Hl as [Hystr Hl].
    destruct (title_lt y x) eqn:Hlt.
    + constructor; [auto|].
      apply (Permutation_Forall (insert_permutation x l)).
      constructor; [now apply title_lt_by_title|assumption].
    + pose proof (not_title_lt_by_title y x Hystr Hx Hlt) as Hxy.
      constructor; [now constructor|].
      constructor; [assumption|].
      eapply Forall_impl; [|exact Hy].
      intros z Hyz. unfold by_title in *. eapply leb_trans; eassumption.
Qed.

Lemma insert_is_str x l :
  title_is_str x = true -> forallb title_is_str l = true ->
  forallb title_is_str (insert_by_title x l) = true.
Proof.
  intros Hx Hl. induction l as [|y l IH]; simpl; [now rewrite Hx|].
  simpl in Hl. apply andb_true_iff in Hl as [Hy Hl].
  destruct (title_lt y x); simpl; rewrite ?Hx, ?Hy, ?Hl, ?IH; auto.
Qed.

Lemma sort_permutation l : Permutation l (stable_sort_by_title l).
Proof.
  induction l as [|x l IH]; simpl; [reflexivity|].
  rewrite <- insert_permutation. now constructor.
Qed.

Lemma sort_stable t l :
  filter (has_title t) (stable_sort_by_title l) = filter (has_title t) l.
Proof.
  induction l as [|x l IH]; [reflexivity|].
  simpl stable_sort_by_title. rewrite insert_stable. simpl. now rewrite IH.
Qed.

Lemma sort_is_str l :
  forallb title_is_str l = true ->
  forallb title_is_str (stable_sort_by_title l) = true.
Proof.
  induction l as [|x l IH]; [reflexivity|].
  simpl. intros H. apply andb_true_iff in H as [Hx Hl].
  apply insert_is_str; auto.
Qed.

Lemma sort_sorted l :
  forallb title_is_str l = true ->
  StronglySorted by_title (stable_sort_by_title l).
Proof.
  induction l as [|x l IH]; [constructor|].
  simpl. intros H. apply andb_true_iff in H as [Hx Hl].
  apply insert_sorted; auto using sort_is_str.
Qed.

(** The six orders of three things. *)
Lemma permutation_of_three {A} (x y z : A) l :
  Permutation l [x; y; z] ->
  l = [x; y; z] \/ l = [x; z; y] \/ l = [y; x; z] \/
  l = [y; z; x] \/ l = [z; x; y] \/ l = [z; y; x].
Proof.
  intros H. pose proof (Permutation_length H) as Hlen.
  destruct l as [|a [|b [|c [|]]]]; try discriminate. clear Hlen.
  assert (In a [x; y; z]) as Ha
    by (apply (Permutation_in _ H); now left).
  destruct Ha as [<-|[<-|[<-|[]]]].
  - apply Permutation_cons_inv in H.
    apply Permutation_length_2_inv in H as [[= -> ->]|[= -> ->]]; auto.
  - apply (Permutation_cons_app_inv [x] [z]) in H. simpl in H.
    apply Permutation_length_2_inv in H as [[= -> ->]|[= -> ->]]; auto 6.
  - apply (Permutation_cons_app_inv [x; y] []) in H. simpl in H.
    apply Permutation_length_2_inv in H as [[= -> ->]|[= -> ->]]; auto 7.
Qed.

(** Three records titled Zeta, Alpha and Mid, in any order. *)
Lemma sort_three z a m l :
  title z = PStr "Zeta" -> title a = PStr "Alpha" -> title m = PStr "Mid" ->
  Permutation l [z; a; m] ->
  sort_by_title l = Some [a; m; z].
Proof.
  intros Hz Ha Hm H.
  assert (forall x y sx sy,
             title x = PStr sx -> title y = PStr sy ->
             title_lt x y = String.ltb sx sy) as Lt
    by (intros x y sx sy Hx Hy; unfold title_lt; now rewrite Hx, Hy).
  assert (title_lt z a = false) as Hza by now rewrite (Lt _ _ _ _ Hz Ha).
  assert (title_lt z m = false) as Hzm by now rewrite (Lt _ _ _ _ Hz Hm).
  assert (title_lt a z = true) as Haz by now rewrite (Lt _ _ _ _ Ha Hz).
  assert (title_lt a m = true) as Ham by now rewrite (Lt _ _ _ _ Ha Hm).
  assert (title_lt m z = true) as Hmz by now rewrite (Lt _ _ _ _ Hm Hz).
  assert (title_lt m a = false) as Hma by now rewrite (Lt _ _ _ _ Hm Ha).
  unfold sort_by_title.
  apply permutation_of_three in H
    as [->|[->|[->|[->|[->| ->]]]]];
    simpl; unfold title_is_str; rewrite Hz, Ha, Hm; simpl;
    rewrite ?Hza, ?Hzm, ?Haz, ?Ham, ?Hmz, ?Hma; simpl;
    rewrite ?Hza, ?Hzm, ?Haz, ?Ham, ?Hmz, ?Hma; reflexivity.
Qed.

End TitleOrder.

(** ** The batch *)

Module Batch.

(** The lines one entry of the listing adds. *)
Definition lines_of (entry : dir_entry) : list string :=
  match entry with
  | RegularFile _ => []
  | Directory item files =>
      if has_config files then
        (fst (convert_exercise item files)
         ++ match snd (convert_exercise item files) with
            | Ok ex => [converted_line ex]
            | Raise e => [error_line item e]
            end)%list
      else []
  end.

Lemma scan_step_adds st entry :
  scan_step st entry
  = ((fst st ++ lines_of entry)%list, (snd st ++ records_of entry)%list).
Proof.
  destruct st as [out exs]. destruct entry as [item|item files]; simpl.
  - now rewrite !List.app_nil_r.
  - destruct (has_config files); [|now rewrite !List.app_nil_r].
    destruct (snd (convert_exercise item files)); simpl;
      rewrite ?List.app_nil_r; reflexivity.
Qed.

Lemma fold_scan_step entries : forall st,
  fold_left scan_step entries st
  = ((fst st ++ flat_map lines_of entries)%list,
     (snd st ++ flat_map records_of entries)%list).
Proof.
  induction entries as [|entry entries IH]; intros st; simpl.
  - rewrite !List.app_nil_r. now destruct st.
  - rewrite IH, scan_step_adds. simpl. now rewrite <- !List.app_assoc.
Qed.

Lemma scan_flat_map entries :
  scan entries = (flat_map lines_of entries, flat_map records_of entries).
Proof. unfold scan. now rewrite fold_scan_step. Qed.

Lemma scan_app before after :
  scan (before ++ after)
  = ((fst (scan before) ++ fst (scan after))%list,
     (snd (scan before) ++ snd (scan after))%list).
Proof. rewrite !scan_flat_map, !flat_map_app. reflexivity. Qed.

(** A record of the scan is a record of the run, and so is a line. *)
Lemma generate_keeps entries run :
  generate_exercises_js entries = Some run ->
  (forall ex, In ex (snd (scan entries)) -> In ex (exercises run)) /\
  (forall line, In line (fst (scan entries)) -> In line (stdout run)).
Proof.
  unfold generate_exercises_js, sort_by_title.
  destruct (forallb title_is_str (snd (scan entries))); [|discriminate].
  intros [= <-]. simpl. split.
  - intros ex. apply Permutation_in, TitleOrder.sort_permutation.
  - intros line H. apply in_or_app. now left.
Qed.

Lemma convert_exercise_steps folder_name files config t d s :
  load_config files = Ok config ->
  get_title config folder_name = Ok t ->
  read_file_safe (description_md files) = Ok d ->
  read_file_safe (solution_txt files) = Ok s ->
  convert_exercise folder_name files
  = (fst (read_suite folder_name files),
     match snd (read_suite folder_name files) with
     | Ok test_cases =>
         Ok {| id := folder_name_to_id folder_name;
               title := t;
               description := d;
               solution := s;
               testCases := test_cases |}
     | Raise e => Raise e
     end).
Proof.
  intros Hc Ht Hd Hs. unfold convert_exercise, bind, lift.
  cbn [fst snd]. rewrite Hc. cbn [fst snd]. rewrite Ht. cbn [fst snd].
  rewrite Hd. cbn [fst snd]. rewrite Hs. cbn [fst snd app].
  destruct (read_suite folder_name files) as [out [tcs|e]]; simpl;
    rewrite ?List.app_nil_r; reflexivity.
Qed.

(** The text of a record of the list lies in the text of the list. *)
Lemma render_exercises_In ex l :
  In ex l ->
  exists before after last,
    render_exercises l = before ++ render_exercise ex last ++ after.
Proof.
  induction l as [|a l IH]; [contradiction|].
  intros [->|H].
  - destruct l as [|b l].
    + exists EmptyString, EmptyString, true.
      simpl. now rewrite StrFacts.app_nil_r.
    + exists EmptyString, (render_exercises (b :: l)), false. reflexivity.
  - destruct l as [|b l]; [contradiction|].
    destruct (IH H) as (before & after & last & E).
    exists (render_exercise a false ++ before), after, last.
    change (render_exercises (a :: b :: l))
      with (render_exercise a false ++ render_exercises (b :: l)).
    rewrite E. now rewrite StrFacts.app_assoc.
Qed.

End Batch.


(** C6, as worded, fails: a suite that exists and cannot be loaded is not
    always tolerated.  Only [yaml.YAMLError] is caught at line 75.  A suite
    whose bytes are no UTF-8 raises [UnicodeDecodeError] when it is read,
    and a suite with the date 2001-02-30 makes the loader raise
    [ValueError]: in both cases the conversion raises, no warning is
    printed, and the batch prints the error line and emits no record for
    the exercise. *)
Lemma unloadable_suite_drops_exercise :
  (convert_exercise "Bad Bytes" Samples.undecodable_suite
   = ([], Raise (Exn UnicodeDecodeError
                   "'utf-8' codec can't decode byte 0xff in position 0: invalid start byte")) /\
   generate_exercises_js [Directory "Bad Bytes" Samples.undecodable_suite]
   = Some {| stdout :=
               ["Error converting Bad Bytes: 'utf-8' codec can't decode byte 0xff in position 0: invalid start byte";
                nl ++ "Generated exercises-data.js with 0 exercises"];
             js_content :=
               "// Exercise data converted from Dodona format" ++ nl
               ++ "const exercises = [" ++ nl ++ "];";
             exercises := [] |}) /\
  (convert_exercise "Bad Date" Samples.impossible_date_suite
   = ([], Raise (Exn ValueError "day is out of range for month")) /\
   generate_exercises_js [Directory "Bad Date" Samples.impossible_date_suite]
   = Some {| stdout :=
               ["Error converting Bad Date: day is out of range for month";
                nl ++ "Generated exercises-data.js with 0 exercises"];
             js_content :=
               "// Exercise data converted from Dodona format" ++ nl
               ++ "const exercises = [" ++ nl ++ "];";
             exercises := [] |}).
Proof. repeat split. Qed.

(** C6, amended.  When loading the suite raises a YAML error and the steps
    before the suite succeed (the configuration loads, the title is found,
    the two text files are read), the conversion prints the warning with the
    folder name and returns the exercise with no test case.  A batch that
    lists the directory, and whose titles are strings, then runs to its end:
    the warning is among its lines, the exercise among the records returned,
    and the text written holds the record of the exercise with an empty
    list of test cases.  When loading the suite raises anything else, the
    conversion raises it, prints no warning, and the directory adds no
    record. *)
Theorem unparseable_suite_keeps_exercise :
  (forall folder_name files e config t d s,
      suite_yaml files = Some (Raise e) ->
      is_YAMLError e = true ->
      load_config files = Ok config ->
      get_title config folder_name = Ok t ->
      read_file_safe (description_md files) = Ok d ->
      read_file_safe (solution_txt files) = Ok s ->
      convert_exercise folder_name files
      = (["Warning: Could not parse YAML for " ++ folder_name ++ ": "
            ++ exn_text e],
         Ok {| id := folder_name_to_id folder_name;
               title := t;
               description := d;
               solution := s;
               testCases := [] |}) /\
      (forall entries,
          In (Directory folder_name files) entries ->
          has_config files = true ->
          forallb title_is_str (snd (scan entries)) = true ->
          exists run before after,
            generate_exercises_js entries = Some run /\
            In {| id := folder_name_to_id folder_name;
                  title := t;
                  description := d;
                  solution := s;
                  testCases := [] |} (exercises run) /\
            In ("Warning: Could not parse YAML for " ++ folder_name ++ ": "
                  ++ exn_text e) (stdout run) /\
            js_content run
            = before
              ++ record_without_tests (folder_name_to_id folder_name)
                   (py_str t) d s
              ++ after)) /\
  (forall folder_name files e config t d s,
      suite_yaml files = Some (Raise e) ->
      is_YAMLError e = false ->
      load_config files = Ok config ->
      get_title config folder_name = Ok t ->
      read_file_safe (description_md files) = Ok d ->
      read_file_safe (solution_txt files) = Ok s ->
      convert_exercise folder_name files = ([], Raise e) /\
      records_of (Directory folder_name files) = []).
Proof.
  split.
  - intros folder_name files e config t d s Hsuite Hyaml Hc Ht Hd Hs.
    assert (read_suite folder_name files
            = ([yaml_warning folder_name e], Ok [])) as Hread.
    { unfold read_suite. rewrite Hsuite. simpl. now rewrite Hyaml. }
    pose proof (Batch.convert_exercise_steps _ _ _ _ _ _ Hc Ht Hd Hs)
      as Hconv.
    rewrite Hread in Hconv. simpl in Hconv. split; [exact Hconv|].
    intros entries Hin Hcfg Hstr.
    destruct (generate_exercises_js entries) as [run|] eqn:Hrun.
    2:{ unfold generate_exercises_js, sort_by_title in Hrun.
        rewrite Hstr in Hrun. discriminate. }
    destruct (Batch.generate_keeps _ _ Hrun) as [Hex Hline].
    rewrite Batch.scan_flat_map in Hex, Hline. simpl in Hex, Hline.
    assert (In {| id := folder_name_to_id folder_name; title := t;
                  description := d; solution := s; testCases := [] |}
              (exercises run)) as Hrec.
    { apply Hex, in_flat_map. exists (Directory folder_name files).
      split; [assumption|]. simpl. rewrite Hcfg, Hconv. simpl. now left. }
    destruct (Batch.render_exercises_In _ _ Hrec)
      as (before & after & last & Htext).
    exists run,
      ("// Exercise data converted from Dodona format" ++ nl
       ++ "const exercises = [" ++ nl ++ before),
      ((if last then EmptyString else ",") ++ nl ++ after ++ "];").
    split; [reflexivity|]. split; [exact Hrec|]. split.
    + apply Hline, in_flat_map. exists (Directory folder_name files).
      split; [assumption|]. simpl. rewrite Hcfg, Hconv. simpl. now left.
    + unfold generate_exercises_js, sort_by_title in Hrun.
      rewrite Hstr in Hrun. injection Hrun as <-.
      cbn [js_content exercises] in *. unfold render_js. rewrite Htext.
      unfold render_exercise, record_without_tests.
      cbn [id title description solution testCases map Str.flatten].
      rewrite !StrFacts.app_assoc. reflexivity.
  - intros folder_name files e config t d s Hsuite Hyaml Hc Ht Hd Hs.
    assert (read_suite folder_name files = ([], Raise e)) as Hread.
    { unfold read_suite. rewrite Hsuite. simpl. now rewrite Hyaml. }
    pose proof (Batch.convert_exercise_steps _ _ _ _ _ _ Hc Ht Hd Hs)
      as Hconv.
    rewrite Hread in Hconv. simpl in Hconv. split; [exact Hconv|].
    simpl. rewrite Hconv. simpl. now destruct (has_config files).
Qed.

Lemma unparseable_suite_keeps_exercise_witness :
  convert_exercise "Broken Suite" Samples.broken_suite
  = (["Warning: Could not parse YAML for Broken Suite: "
        ++ "mapping values are not allowed here"],
     Ok {| id := folder_name_to_id "Broken Suite";
           title := PStr "Broken";
           description := "Echo `x`.";
           solution := EmptyString;
           testCases := [] |}) /\
  (forall entries,
      In (Directory "Broken Suite" Samples.broken_suite) entries ->
      has_config Samples.broken_suite = true ->
      forallb title_is_str (snd (scan entries)) = true ->
      exists run before after,
        generate_exercises_js entries = Some run /\
        In {| id := folder_name_to_id "Broken Suite";
              title := PStr "Broken";
              description := "Echo `x`.";
              solution := EmptyString;
              testCases := [] |} (exercises run) /\
        In ("Warning: Could not parse YAML for Broken Suite: "
              ++ "mapping values are not allowed here") (stdout run) /\
        js_content run
        = before
          ++ record_without_tests (folder_name_to_id "Broken Suite")
               (py_str (PStr "Broken")) "Echo `x`." EmptyString
          ++ after).
Proof.
  apply (proj1 unparseable_suite_keeps_exercise
           "Broken Suite" Samples.broken_suite
           (Exn YAMLError "mapping values are not allowed here")
           (Samples.titled_config "Broken") (PStr "Broken")
           "Echo `x`." EmptyString); reflexivity.
Defined.

(** C7. The records gathered are those of the directories that convert,
    in the order of the listing.  A candidate directory whose conversion
    raises adds its error line, with its name and the text of the exception,
    and no record, and the entries behind it are scanned as they would be
    without it. *)
Theorem failed_directory_is_skipped :
  (forall entries,
      snd (scan entries) = flat_map records_of entries) /\
  (forall before item files after e,
      has_config files = true ->
      snd (convert_exercise item files) = Raise e ->
      scan (before ++ Directory item files :: after)
      = ((fst (scan before)
          ++ fst (convert_exercise item files)
          ++ [("Error converting " ++ item ++ ": " ++ exn_text e)%string]
          ++ fst (scan after))%list,
         (snd (scan before) ++ snd (scan after))%list)) /\
  (forall item files e,
      has_config files = true ->
      snd (convert_exercise item files) = Raise e ->
      records_of (Directory item files) = []).
Proof.
  repeat split.
  - intros entries. now rewrite Batch.scan_flat_map.
  - intros before item files after e Hcfg Hraise.
    change (Directory item files :: after)
      with ([Directory item files] ++ after)%list.
    rewrite !Batch.scan_app. rewrite (Batch.scan_flat_map [_]).
    simpl. rewrite Hcfg, Hraise. simpl.
    rewrite !List.app_nil_r, <- !List.app_assoc. reflexivity.
  - intros item files e Hcfg Hraise. simpl. now rewrite Hcfg, Hraise.
Qed.

Lemma failed_directory_is_skipped_witness :
  scan ([Directory "first" Samples.hello]
        ++ Directory "bad" Samples.broken_config
        :: [Directory "last" Samples.mapping_suite])
  = ((fst (scan [Directory "first" Samples.hello])
      ++ fst (convert_exercise "bad" Samples.broken_config)
      ++ ["Error converting bad: Expecting value: line 1 column 1 (char 0)"]
      ++ fst (scan [Directory "last" Samples.mapping_suite]))%list,
     (snd (scan [Directory "first" Samples.hello])
      ++ snd (scan [Directory "last" Samples.mapping_suite]))%list).
Proof.
  apply (proj1 (proj2 failed_directory_is_skipped)
           [Directory "first" Samples.hello] "bad" Samples.broken_config
           [Directory "last" Samples.mapping_suite]
           (Exn JSONDecodeError "Expecting value: line 1 column 1 (char 0)"));
    reflexivity.
Defined.

(** C10. When the suite loads and is not a list, the steps before the
    suite succeeding as above, the conversion prints nothing and returns the
    exercise with no test case. *)
Theorem non_list_suite_is_silent :
  forall folder_name files v config t d s,
    suite_yaml files = Some (Ok v) ->
    is_list v = false ->
    load_config files = Ok config ->
    get_title config folder_name = Ok t ->
    read_file_safe (description_md files) = Ok d ->
    read_file_safe (solution_txt files) = Ok s ->
    convert_exercise folder_name files
    = ([],
       Ok {| id := folder_name_to_id folder_name;
             title := t;
             description := d;
             solution := s;
             testCases := [] |}).
Proof.
  intros folder_name files v config t d s Hsuite Hlist Hc Ht Hd Hs.
  rewrite (Batch.convert_exercise_steps _ _ _ _ _ _ Hc Ht Hd Hs).
  unfold read_suite, convert_suite. rewrite Hsuite. simpl.
  rewrite Hlist, andb_false_r. reflexivity.
Qed.

Lemma non_list_suite_is_silent_witness :
  convert_exercise "A Mapping" Samples.mapping_suite
  = ([],
     Ok {| id := folder_name_to_id "A Mapping";
           title := PStr "Mapping";
           description := EmptyString;
           solution := "echo";
           testCases := [] |}).
Proof.
  apply (non_list_suite_is_silent "A Mapping" Samples.mapping_suite
           (PDict [("testcases", PList [PDict []])])
           (Samples.titled_config "Mapping") (PStr "Mapping")
           EmptyString "echo"); reflexivity.
Defined.

(** C9. The summary does not do what is asked of it: the test for the
    marker is whether the key is in the dict, and every test case the script
    builds has the key.  So the marker is there exactly when the exercise
    has a test case; the directory [Samples.hello], with one test case and
    no input in it, gets the marker. *)
Theorem summary_marker_without_input :
  (forall ex, has_input ex = match testCases ex with [] => false | _ => true end) /\
  (exists run ex,
      main [Directory "hello" Samples.hello] = Some run /\
      exercises run = [ex] /\
      Forall (fun tc => input tc = []) (testCases ex) /\
      summary_line ex = "- Hello: 1 test cases (with input)" /\
      In (summary_line ex) (stdout run)).
Proof.
  split.
  - intros ex. unfold has_input. now destruct (testCases ex).
  - eexists. eexists. split; [reflexivity|]. split; [reflexivity|].
    split; [repeat constructor|]. split; [reflexivity|].
    simpl. auto.
Qed.

(** * Further properties *)

(** ** The shape of an id *)

Module SlugShape.

#[local] Arguments Ascii.eqb : simpl nomatch.

Import SlugFacts.

Lemma last_char_same s : last_char s = StripSplit.last_char s.
Proof. reflexivity. Qed.

Lemma re_sub_plus_cons p repl c s :
  re_sub_plus p repl (String c s)
  = if p c then repl ++ re_sub_plus p repl (Str.drop_while p s)
    else String c (re_sub_plus p repl s).
Proof. simp re_sub_plus. destruct (p c); reflexivity. Qed.

Section Kept.

Variable p : ascii -> bool.

(** What [re.sub] writes is a separator or a character outside the class. *)
Lemma re_sub_plus_chars s :
  Str.forallb (fun c => (negb (p c) || Ascii.eqb c "-")%bool)
    (re_sub_plus p "-" s) = true.
Proof.
  remember "-" as repl eqn:Erepl.
  funelim (re_sub_plus p repl s).
  - reflexivity.
  - change ("-" ++ re_sub_plus p "-" (Str.drop_while p s'))
      with (String "-" (re_sub_plus p "-" (Str.drop_while p s'))).
    cbn [Str.forallb]. rewrite Ascii.eqb_refl, orb_true_r. cbn [andb]. auto.
  - cbn [Str.forallb]. rewrite Heq. cbn [negb orb andb]. auto.
Qed.

End Kept.

Lemma forallb_rstrip_by p q s :
  Str.forallb q s = true -> Str.forallb q (Str.rstrip_by p s) = true.
Proof.
  destruct (StripSplit.rstrip_by_suffix p s) as (post & E & _).
  intros H. rewrite E, StrFacts.forallb_app in H.
  now apply andb_true_iff in H as [H _].
Qed.

Lemma no_double_dash_drop_while p s :
  no_double_dash s = true -> no_double_dash (Str.drop_while p s) = true.
Proof.
  induction s as [|c s IH]; [reflexivity|].
  intros H. simpl. destruct (p c); [|exact H].
  apply IH. exact (no_double_dash_tail _ _ H).
Qed.

Lemma no_double_dash_app_l s t :
  no_double_dash (s ++ t) = true -> no_double_dash s = true.
Proof.
  induction s as [|c s IH]; [reflexivity|].
  destruct s as [|d s]; [reflexivity|].
  change (no_double_dash ((String c (String d s)) ++ t))
    with (negb (Ascii.eqb c "-" && Ascii.eqb d "-")
          && no_double_dash (String d s ++ t))%bool.
  change (no_double_dash (String c (String d s)))
    with (negb (Ascii.eqb c "-" && Ascii.eqb d "-")
          && no_double_dash (String d s))%bool.
  intros H. apply andb_true_iff in H as [H1 H2].
  now rewrite H1, (IH H2).
Qed.

Lemma no_double_dash_rstrip_by p s :
  no_double_dash s = true -> no_double_dash (Str.rstrip_by p s) = true.
Proof.
  destruct (StripSplit.rstrip_by_suffix p s) as (post & E & _).
  intros H. rewrite E in H. exact (no_double_dash_app_l _ _ H).
Qed.

Lemma contains_double_dash s :
  Str.contains "--" s = negb (no_double_dash s).
Proof.
  induction s as [|a s IH]; [reflexivity|].
  cbn [Str.contains]. rewrite IH.
  destruct s as [|b s]; [simpl; now rewrite andb_false_r|].
  change (no_double_dash (String a (String b s)))
    with (negb (Ascii.eqb a "-" && Ascii.eqb b "-")
          && no_double_dash (String b s))%bool.
  cbn [Str.starts_with]. rewrite andb_true_r.
  rewrite (Ascii.eqb_sym "-" a), (Ascii.eqb_sym "-" b).
  destruct (Ascii.eqb a "-"), (Ascii.eqb b "-"),
    (no_double_dash (String b s)); reflexivity.
Qed.

(** The four facts about the text that [folder_name_to_id] returns. *)
Lemma id_chars D : Str.forallb is_slug_char (folder_name_to_id D) = true.
Proof.
  unfold folder_name_to_id, Str.strip_chars, Str.strip_by, Str.lstrip_by.
  apply forallb_rstrip_by, StrFacts.forallb_drop_while.
  rewrite (StrFacts.forallb_ext is_slug_char
             (fun c => (negb (Char.not_lower_alnum c) || Ascii.eqb c "-")%bool)).
  - apply re_sub_plus_chars.
  - intros c. unfold is_slug_char, Char.not_lower_alnum.
    now rewrite negb_involutive.
Qed.

Lemma id_no_double_dash D : no_double_dash (folder_name_to_id D) = true.
Proof.
  unfold folder_name_to_id, Str.strip_chars, Str.strip_by, Str.lstrip_by.
  apply no_double_dash_rstrip_by, no_double_dash_drop_while.
  apply re_sub_plus_no_double_dash. reflexivity.
Qed.

Lemma id_head D c t :
  folder_name_to_id D = String c t -> Ascii.eqb c "-" = false.
Proof.
  unfold folder_name_to_id, Str.strip_chars. intros H.
  destruct (StripSplit.strip_by_spec
              (fun c => Str.existsb (Ascii.eqb c) "-")
              (re_sub_plus Char.not_lower_alnum "-" (Str.lower D)))
    as (_ & _ & _ & _ & _ & Hhead & _).
  specialize (Hhead c t H). simpl in Hhead. now rewrite orb_false_r in Hhead.
Qed.

Lemma id_last D c :
  last_char (folder_name_to_id D) = Some c -> Ascii.eqb c "-" = false.
Proof.
  unfold folder_name_to_id, Str.strip_chars. intros H.
  destruct (StripSplit.strip_by_spec
              (fun c => Str.existsb (Ascii.eqb c) "-")
              (re_sub_plus Char.not_lower_alnum "-" (Str.lower D)))
    as (_ & _ & _ & _ & _ & _ & Hlast).
  specialize (Hlast c H). simpl in Hlast. now rewrite orb_false_r in Hlast.
Qed.

(** On a text of that shape each of the three steps changes nothing. *)
Lemma lower_slug_char c : is_slug_char c = true -> Char.lower c = c.
Proof. CharFacts.all_chars c. Qed.

Lemma class_of_slug_char c :
  is_slug_char c = true -> Char.not_lower_alnum c = Ascii.eqb c "-".
Proof. CharFacts.all_chars c. Qed.

Lemma lower_slug t : Str.forallb is_slug_char t = true -> Str.lower t = t.
Proof.
  induction t as [|c t IH]; [reflexivity|].
  cbn [Str.forallb]. intros H. apply andb_true_iff in H as [Hc Ht].
  unfold Str.lower in *. cbn [Str.map].
  now rewrite (lower_slug_char c Hc), (IH Ht).
Qed.

Lemma re_sub_plus_slug t :
  Str.forallb is_slug_char t = true -> no_double_dash t = true ->
  re_sub_plus Char.not_lower_alnum "-" t = t.
Proof.
  induction t as [|c t IH]; [reflexivity|].
  cbn [Str.forallb]. intros H Hdd. apply andb_true_iff in H as [Hc Ht].
  pose proof (no_double_dash_tail _ _ Hdd) as Hdd'.
  rewrite re_sub_plus_cons, (class_of_slug_char c Hc).
  destruct (Ascii.eqb_spec c "-") as [->|Hne]; [|now rewrite IH].
  assert (Str.drop_while Char.not_lower_alnum t = t) as ->.
  { destruct t as [|d t]; [reflexivity|].
    cbn [Str.forallb] in Ht. apply andb_true_iff in Ht as [Hd _].
    change (no_double_dash (String "-" (String d t)))
      with (negb (Ascii.eqb "-" "-" && Ascii.eqb d "-")
            && no_double_dash (String d t))%bool in Hdd.
    rewrite Ascii.eqb_refl in Hdd. cbn [andb] in Hdd.
    apply andb_true_iff in Hdd as [Hd' _]. apply negb_true_iff in Hd'.
    cbn [Str.drop_while]. now rewrite (class_of_slug_char d Hd), Hd'. }
  now rewrite IH.
Qed.

Lemma rstrip_by_kept p s :
  (forall c, last_char s = Some c -> p c = false) -> Str.rstrip_by p s = s.
Proof.
  induction s as [|c s IH]; [reflexivity|].
  intros H. cbn [Str.rstrip_by]. destruct s as [|d s].
  - cbn [Str.rstrip_by]. now rewrite (H c eq_refl).
  - rewrite IH by (intros e He; apply H; exact He). reflexivity.
Qed.

End SlugShape.

(** X1. An id is made of lowercase ASCII letters, digits and ["-"] only; it
    neither begins nor ends with ["-"] and holds no two of them in a row. *)
Theorem folder_name_to_id_shape (D : string) :
  Str.forallb is_slug_char (folder_name_to_id D) = true /\
  Str.starts_with "-" (folder_name_to_id D) = false /\
  last_char (folder_name_to_id D) <> Some "-"%char /\
  Str.contains "--" (folder_name_to_id D) = false.
Proof.
  split; [apply SlugShape.id_chars|]. split; [|split].
  - destruct (folder_name_to_id D) as [|c t] eqn:E; [reflexivity|].
    cbn [Str.starts_with]. rewrite Ascii.eqb_sym.
    now rewrite (SlugShape.id_head D c t E).
  - intros H. apply SlugShape.id_last in H. discriminate.
  - rewrite SlugShape.contains_double_dash, SlugShape.id_no_double_dash.
    reflexivity.
Qed.

(** X2. Taking the id of an id changes nothing. *)
Theorem folder_name_to_id_idempotent (D : string) :
  folder_name_to_id (folder_name_to_id D) = folder_name_to_id D.
Proof.
  pose proof (SlugShape.id_chars D) as Hchars.
  pose proof (SlugShape.id_no_double_dash D) as Hdd.
  pose proof (SlugShape.id_head D) as Hhead.
  pose proof (SlugShape.id_last D) as Hlast.
  remember (folder_name_to_id D) as t eqn:Et. clear Et.
  unfold folder_name_to_id.
  rewrite (SlugShape.lower_slug t Hchars).
  rewrite (SlugShape.re_sub_plus_slug t Hchars Hdd).
  unfold Str.strip_chars, Str.strip_by, Str.lstrip_by.
  assert (Str.drop_while (fun c => Str.existsb (Ascii.eqb c) "-") t = t) as ->.
  { destruct t as [|c t']; [reflexivity|].
    cbn [Str.drop_while Str.existsb]. rewrite orb_false_r.
    now rewrite (Hhead c t' eq_refl). }
  apply SlugShape.rstrip_by_kept. intros c Hc.
  cbn [Str.existsb]. rewrite orb_false_r. now apply Hlast.
Qed.

(** ** More on the escaping *)

Module EscapeMore.

#[local] Arguments Ascii.eqb : simpl nomatch.

Import Escaping.

Lemma length_app s t :
  String.length (s ++ t) = String.length s + String.length t.
Proof. induction s as [|c s IH]; simpl; congruence. Qed.

Lemma length_escape_scan s :
  String.length (escape_scan s) = String.length s + escapes_needed s.
Proof.
  induction s as [|c s IH]; [reflexivity|].
  rewrite escape_scan_cons. cbn [escapes_needed String.length].
  destruct (Ascii.eqb_spec c "$") as [->|Hd].
  - simpl (Ascii.eqb "$" "092"). simpl (Ascii.eqb "$" "`"). cbn [orb andb].
    destruct (Str.starts_with "{" s); rewrite length_app, IH; simpl; lia.
  - cbn [andb]. rewrite orb_false_r. unfold protect.
    destruct (Ascii.eqb c "092"); [rewrite length_app, IH; simpl; lia|].
    destruct (Ascii.eqb c "`"); rewrite length_app, IH; simpl; lia.
Qed.

Lemma is_plain_cons c s :
  is_plain (String c s)
  = (negb (Ascii.eqb c "092" || Ascii.eqb c "`"
           || (Ascii.eqb c "$" && Str.starts_with "{" s))
     && is_plain s)%bool.
Proof.
  unfold is_plain. cbn [Str.existsb Str.contains].
  change (Str.starts_with "${" (String c s))
    with (Ascii.eqb "$" c && Str.starts_with "{" s)%bool.
  rewrite (Ascii.eqb_sym "092" c), (Ascii.eqb_sym "`" c),
    (Ascii.eqb_sym "$" c).
  destruct (Ascii.eqb c "092"), (Ascii.eqb c "`"), (Ascii.eqb c "$"),
    (Str.starts_with "{" s), (Str.existsb (Ascii.eqb "092") s),
    (Str.existsb (Ascii.eqb "`") s), (Str.contains "${" s); reflexivity.
Qed.

Lemma plain_no_escape s : escapes_needed s = 0 <-> is_plain s = true.
Proof.
  induction s as [|c s IH]; [split; reflexivity|].
  rewrite is_plain_cons. cbn [escapes_needed].
  destruct (Ascii.eqb c "092" || Ascii.eqb c "`"
            || (Ascii.eqb c "$" && Str.starts_with "{" s))%bool; simpl.
  - split; [lia|discriminate].
  - exact IH.
Qed.

Lemma escape_scan_plain s : escapes_needed s = 0 -> escape_scan s = s.
Proof.
  induction s as [|c s IH]; [reflexivity|].
  cbn [escapes_needed]. rewrite escape_scan_cons. unfold protect.
  destruct (Ascii.eqb c "092"); [simpl; lia|].
  destruct (Ascii.eqb c "`"); [simpl; lia|].
  destruct (Ascii.eqb c "$" && Str.starts_with "{" s)%bool; [simpl; lia|].
  simpl. intros H. now rewrite IH.
Qed.

(** Dropping each backslash and keeping what it protects undoes the scan. *)
Fixpoint unescape (s : string) : string :=
  match s with
  | EmptyString => EmptyString
  | String c rest =>
      if Ascii.eqb c "092" then
        match rest with
        | String e rest' => String e (unescape rest')
        | EmptyString => EmptyString
        end
      else String c (unescape rest)
  end.

Lemma unescape_escape_scan s : unescape (escape_scan s) = s.
Proof.
  induction s as [|c s IH]; [reflexivity|].
  rewrite escape_scan_cons.
  destruct (Ascii.eqb_spec c "$") as [->|Hd].
  - cbn [andb]. destruct (Str.starts_with "{" s).
    + change ("\$" ++ escape_scan s)
        with (String "092" (String "$" (escape_scan s))).
      cbn [unescape]. rewrite Ascii.eqb_refl. now rewrite IH.
    + change (protect "$" ++ escape_scan s)
        with (String "$" (escape_scan s)).
      cbn [unescape]. simpl (Ascii.eqb "$" "092"). cbv iota. now rewrite IH.
  - cbn [andb]. unfold protect.
    destruct (Ascii.eqb_spec c "092") as [->|Hb].
    + change ("\\" ++ escape_scan s)
        with (String "092" (String "092" (escape_scan s))).
      cbn [unescape]. rewrite Ascii.eqb_refl. now rewrite IH.
    + destruct (Ascii.eqb_spec c "`") as [->|Ht].
      * change ("\`" ++ escape_scan s)
          with (String "092" (String "`" (escape_scan s))).
        cbn [unescape]. rewrite Ascii.eqb_refl. now rewrite IH.
      * change (String c EmptyString ++ escape_scan s)
          with (String c (escape_scan s)).
        cbn [unescape]. apply Ascii.eqb_neq in Hb. now rewrite Hb, IH.
Qed.

Lemma starts_with_app_nonempty pre c s t :
  Str.starts_with (String pre EmptyString) (String c s ++ t)
  = Str.starts_with (String pre EmptyString) (String c s).
Proof. reflexivity. Qed.

Lemma escape_scan_app s : forall t,
  (last_char s = Some "$"%char -> Str.starts_with "{" t = false) ->
  escape_scan (s ++ t) = escape_scan s ++ escape_scan t.
Proof.
  induction s as [|c s IH]; intros t H; [reflexivity|].
  change (String c s ++ t) with (String c (s ++ t)).
  rewrite !escape_scan_cons.
  assert (escape_scan (s ++ t) = escape_scan s ++ escape_scan t) as ->.
  { apply IH. intros Hs. apply H. destruct s; [discriminate|exact Hs]. }
  assert ((Ascii.eqb c "$" && Str.starts_with "{" (s ++ t))%bool
          = (Ascii.eqb c "$" && Str.starts_with "{" s)%bool) as ->.
  { destruct s as [|d s]; [|reflexivity].
    destruct (Ascii.eqb_spec c "$") as [->|]; [|reflexivity].
    simpl. apply H. reflexivity. }
  destruct (Ascii.eqb c "$" && Str.starts_with "{" s)%bool;
    now rewrite StrFacts.app_assoc.
Qed.

End EscapeMore.

(** X3. The escaping adds one character for each backslash, each backtick
    and each dollar sign before an opening brace, and none otherwise: a text
    comes out unchanged exactly when it has none of the three. *)
Theorem escaping_grows_by_escapes (s : string) :
  String.length (convert_markdown_to_js_string s)
  = String.length s + escapes_needed s /\
  (convert_markdown_to_js_string s = s <-> is_plain s = true).
Proof.
  rewrite Escaping.convert_markdown_to_js_string_scan.
  split; [apply EscapeMore.length_escape_scan|].
  rewrite <- EscapeMore.plain_no_escape. split.
  - intros H. pose proof (EscapeMore.length_escape_scan s) as L.
    rewrite H in L. lia.
  - apply EscapeMore.escape_scan_plain.
Qed.

(** X4. The escaping loses nothing: two texts with the same escaped form
    are the same text. *)
Theorem escaping_injective (s t : string) :
  convert_markdown_to_js_string s = convert_markdown_to_js_string t <-> s = t.
Proof.
  split; [|now intros ->].
  rewrite !Escaping.convert_markdown_to_js_string_scan. intros H.
  rewrite <- (EscapeMore.unescape_escape_scan s),
    <- (EscapeMore.unescape_escape_scan t).
  now rewrite H.
Qed.

(** X5. Escaping a text in two parts and putting the results together is
    escaping the whole, unless the cut falls between a dollar sign and an
    opening brace. *)
Theorem escaping_of_parts (s t : string) :
  (last_char s = Some "$"%char -> Str.starts_with "{" t = false) ->
  convert_markdown_to_js_string (s ++ t)
  = convert_markdown_to_js_string s ++ convert_markdown_to_js_string t.
Proof.
  intros H. rewrite !Escaping.convert_markdown_to_js_string_scan.
  now apply EscapeMore.escape_scan_app.
Qed.

Lemma escaping_of_parts_witness :
  convert_markdown_to_js_string ("cost: $" ++ "5 for `a\b`")
  = convert_markdown_to_js_string "cost: $"
    ++ convert_markdown_to_js_string "5 for `a\b`".
Proof.
  apply (escaping_of_parts "cost: $" "5 for `a\b`"). reflexivity.
Defined.

(** ** More on the suite *)

Module SuiteMore.

(** The classes the interpreter's own errors have in the suite loop. *)
Definition interpreter_error (e : exn) : bool :=
  match exn_class_of e with
  | TypeError | AttributeError => true
  | _ => false
  end.

Lemma py_contains_error k v e :
  py_contains k v = Raise e -> interpreter_error e = true.
Proof. destruct v; simpl; intros [= <-]; reflexivity. Qed.

Lemma py_iter_error v e : py_iter v = Raise e -> interpreter_error e = true.
Proof. destruct v; simpl; intros [= <-]; reflexivity. Qed.

Lemma py_get_error v k default e :
  py_get v k default = Raise e -> interpreter_error e = true.
Proof. destruct v; simpl; intros [= <-]; reflexivity. Qed.

Lemma py_strip_split_error v e :
  py_strip_split v = Raise e -> interpreter_error e = true.
Proof. destruct v; simpl; intros [= <-]; reflexivity. Qed.

(** A key that [in] finds is a key that indexing finds: no [KeyError]. *)
Lemma py_getitem_after_contains k v e :
  py_contains k v = Ok true -> py_getitem v k = Raise e ->
  interpreter_error e = true.
Proof.
  destruct v; simpl; try (intros _ [= <-]; reflexivity).
  destruct (lookup k d); [discriminate|]. intros [= ].
Qed.

Lemma input_lines_of_error v e :
  input_lines_of v = Raise e -> interpreter_error e = true.
Proof.
  unfold input_lines_of, rbind.
  destruct (py_contains "stdin" v) as [[|]|e'] eqn:C.
  - destruct (py_getitem v "stdin") as [x|e'] eqn:G.
    + destruct (py_truthy x); [apply py_strip_split_error|discriminate].
    + intros [= <-]. eapply py_getitem_after_contains; eassumption.
  - discriminate.
  - intros [= <-]. eapply py_contains_error; eassumption.
Qed.

Lemma convert_test_case_error v e :
  convert_test_case v = Raise e -> interpreter_error e = true.
Proof.
  unfold convert_test_case, rbind.
  destruct (input_lines_of v) eqn:I;
    [|intros [= <-]; eapply input_lines_of_error; eassumption].
  destruct (py_get v "arguments" _) eqn:A;
    [|intros [= <-]; eapply py_get_error; eassumption].
  destruct (py_get v "stdout" _) eqn:O;
    [|intros [= <-]; eapply py_get_error; eassumption].
  destruct (py_get v "exit_code" _) eqn:X;
    [discriminate|intros [= <-]; eapply py_get_error; eassumption].
Qed.

Lemma for_each_error {A B} (f : A -> result B) l e :
  (forall a e', f a = Raise e' -> interpreter_error e' = true) ->
  for_each f l = Raise e -> interpreter_error e = true.
Proof.
  intros Hf. induction l as [|a l IH]; simpl; [discriminate|].
  destruct (f a) eqn:Fa; [|intros [= <-]; eapply Hf; eassumption].
  destruct (for_each f l); [discriminate|].
  intros [= <-]. now apply IH.
Qed.

Lemma convert_tab_error tab e :
  convert_tab tab = Raise e -> interpreter_error e = true.
Proof.
  unfold convert_tab, rbind.
  destruct (py_contains "testcases" tab) as [[|]|e'] eqn:C.
  - destruct (py_getitem tab "testcases") as [x|e'] eqn:G.
    + destruct (py_iter x) as [entries|e'] eqn:I;
        [|intros [= <-]; eapply py_iter_error; eassumption].
      apply for_each_error. apply convert_test_case_error.
    + intros [= <-]. eapply py_getitem_after_contains; eassumption.
  - discriminate.
  - intros [= <-]. eapply py_contains_error; eassumption.
Qed.

Lemma convert_suite_error v e :
  convert_suite v = Raise e -> interpreter_error e = true.
Proof.
  unfold convert_suite, rbind.
  destruct (py_truthy v && is_list v)%bool; [|discriminate].
  destruct (py_iter v) as [tabs|e'] eqn:I;
    [|intros [= <-]; eapply py_iter_error; eassumption].
  destruct (for_each convert_tab tabs) eqn:F; [discriminate|].
  intros [= <-]. eapply for_each_error; [|exact F].
  apply convert_tab_error.
Qed.

Lemma interpreter_error_not_yaml e :
  interpreter_error e = true -> is_YAMLError e = false.
Proof.
  unfold interpreter_error, is_YAMLError.
  destruct (exn_class_of e); try discriminate; reflexivity.
Qed.

Lemma interpreter_error_classes e :
  interpreter_error e = true ->
  exn_class_of e = TypeError \/ exn_class_of e = AttributeError.
Proof.
  unfold interpreter_error. destruct (exn_class_of e); try discriminate; auto.
Qed.

(** What [read_suite] prints. *)
Lemma read_suite_lines folder_name files :
  fst (read_suite folder_name files)
  = match suite_yaml files with
    | Some (Raise e) =>
        if is_YAMLError e then [yaml_warning folder_name e] else []
    | _ => []
    end.
Proof.
  unfold read_suite. destruct (suite_yaml files) as [[v|e]|]; simpl.
  - destruct (convert_suite v) eqn:C; [reflexivity|].
    rewrite (interpreter_error_not_yaml _ (convert_suite_error _ _ C)).
    reflexivity.
  - destruct (is_YAMLError e); reflexivity.
  - reflexivity.
Qed.

(** The conversion prints what [read_suite] prints, or nothing. *)
Lemma convert_exercise_lines folder_name files :
  fst (convert_exercise folder_name files) = [] \/
  fst (convert_exercise folder_name files) = fst (read_suite folder_name files).
Proof.
  unfold convert_exercise, bind, lift. cbn [fst snd].
  destruct (load_config files); cbn [fst snd]; [|now left].
  destruct (get_title _ _); cbn [fst snd]; [|now left].
  destruct (read_file_safe (description_md files)); cbn [fst snd]; [|now left].
  destruct (read_file_safe (solution_txt files)); cbn [fst snd]; [|now left].
  destruct (read_suite folder_name files) as [out [tcs|e]]; cbn [fst snd app];
    right; now rewrite ?List.app_nil_r.
Qed.

(** When the suite stage raises, so does the conversion, and nothing was
    printed. *)
Lemma convert_exercise_suite_raises folder_name files e :
  read_suite folder_name files = ([], Raise e) ->
  exists e', convert_exercise folder_name files = ([], Raise e').
Proof.
  intros H. unfold convert_exercise, bind, lift. cbn [fst snd].
  destruct (load_config files); cbn [fst snd]; [|eauto].
  destruct (get_title _ _); cbn [fst snd]; [|eauto].
  destruct (read_file_safe (description_md files)); cbn [fst snd]; [|eauto].
  destruct (read_file_safe (solution_txt files)); cbn [fst snd]; [|eauto].
  rewrite H. cbn [fst snd app]. eauto.
Qed.

Lemma for_each_raises {A B} (f : A -> result B) l a e :
  In a l -> f a = Raise e -> exists e', for_each f l = Raise e'.
Proof.
  induction l as [|b l IH]; [contradiction|].
  intros [->|Hin] Ha; simpl.
  - rewrite Ha. eauto.
  - destruct (f b); [|eauto].
    destruct (IH Hin Ha) as (e' & ->). eauto.
Qed.

Lemma for_each_returns {A B} (f : A -> result B) l :
  Forall (fun a => exists b, f a = Ok b) l ->
  exists bs, for_each f l = Ok bs /\ Forall2 (fun a b => f a = Ok b) l bs.
Proof.
  induction 1 as [|a l (b & Hb) _ (bs & Hbs & Hall)]; simpl.
  - exists []. split; [reflexivity|constructor].
  - rewrite Hb, Hbs. exists (b :: bs). split; [reflexivity|].
    now constructor.
Qed.

Lemma entry_ok_converts v :
  entry_ok v = true -> exists tc, convert_test_case v = Ok tc.
Proof.
  destruct v as [| | | | |d]; try discriminate. simpl.
  unfold convert_test_case, input_lines_of, rbind. simpl.
  destruct (lookup "stdin" d) as [x|]; simpl; [|eauto].
  destruct (py_truthy x); simpl; [|eauto].
  destruct x; try discriminate. simpl. eauto.
Qed.

Lemma tab_ok_converts tab :
  tab_ok tab = true ->
  exists tcs,
    convert_tab tab = Ok tcs /\
    Forall2 (fun entry tc => convert_test_case entry = Ok tc)
            (tab_entries tab) tcs.
Proof.
  destruct tab as [| | | | |d]; try discriminate. simpl.
  unfold convert_tab, rbind. simpl.
  destruct (lookup "testcases" d) as [x|]; simpl.
  - destruct x as [| | | |l|]; try discriminate. simpl. intros H.
    apply for_each_returns. rewrite forallb_forall in H.
    apply Forall_forall. intros entry Hin.
    apply entry_ok_converts. now apply H.
  - intros _. exists []. split; [reflexivity|constructor].
Qed.

Lemma tabs_ok_convert tabs :
  forallb tab_ok tabs = true ->
  exists per_tab,
    for_each convert_tab tabs = Ok per_tab /\
    Forall2 (fun entry tc => convert_test_case entry = Ok tc)
            (flat_map tab_entries tabs) (concat per_tab).
Proof.
  induction tabs as [|tab tabs IH]; simpl.
  - intros _. exists []. split; [reflexivity|constructor].
  - intros H. apply andb_true_iff in H as [Htab Htabs].
    destruct (tab_ok_converts tab Htab) as (tcs & -> & Hall).
    destruct (IH Htabs) as (per_tab & -> & Hrest).
    exists (tcs :: per_tab). split; [reflexivity|].
    simpl. now apply Forall2_app.
Qed.

End SuiteMore.

(** X6. For a [stdin] that is a non-empty string the input lines are not
    none, none of them holds a line feed, and joined by line feeds they are
    the field without the whitespace at its two ends. *)
Theorem input_lines_join (d : list (string * pyval)) (s : string) :
  lookup "stdin" d = Some (PStr s) ->
  s <> EmptyString ->
  exists lines,
    input_lines_of (PDict d) = Ok lines /\
    lines <> [] /\
    Forall one_line lines /\
    Str.join nl lines = Str.strip s.
Proof.
  intros Hd Hs. exists (Str.split "010" (Str.strip s)).
  unfold input_lines_of. simpl. rewrite Hd. simpl.
  apply String.eqb_neq in Hs. rewrite Hs. simpl.
  split; [reflexivity|]. split; [apply StripSplit.split_not_nil|].
  split; [apply StripSplit.split_pieces|apply StripSplit.split_join].
Qed.

Lemma input_lines_join_witness :
  exists lines,
    input_lines_of (PDict [("stdin", PStr (" 3 4" ++ nl ++ nl ++ "5" ++ nl))])
    = Ok lines /\
    lines <> [] /\
    Forall one_line lines /\
    Str.join nl lines = Str.strip (" 3 4" ++ nl ++ nl ++ "5" ++ nl).
Proof.
  apply (input_lines_join
           [("stdin", PStr (" 3 4" ++ nl ++ nl ++ "5" ++ nl))]
           (" 3 4" ++ nl ++ nl ++ "5" ++ nl)).
  - reflexivity.
  - discriminate.
Defined.

(** X7. A test-case entry that is not a mapping is never skipped: its
    conversion raises a [TypeError] or an [AttributeError]. *)
Theorem non_mapping_entry_raises (v : pyval) :
  is_dict v = false ->
  exists e,
    convert_test_case v = Raise e /\
    (exn_class_of e = TypeError \/ exn_class_of e = AttributeError).
Proof.
  intros H.
  assert (exists e, convert_test_case v = Raise e) as (e & He).
  { destruct v as [|b|z|s|l|d]; try discriminate;
      unfold convert_test_case, input_lines_of, rbind; simpl; eauto.
    - destruct (Str.contains "stdin" s); simpl; eauto.
    - destruct (existsb _ l); simpl; eauto. }
  exists e. split; [exact He|].
  apply SuiteMore.interpreter_error_classes.
  exact (SuiteMore.convert_test_case_error v e He).
Qed.

Lemma non_mapping_entry_raises_witness :
  exists e,
    convert_test_case (PStr "echo hello") = Raise e /\
    (exn_class_of e = TypeError \/ exn_class_of e = AttributeError).
Proof.
  apply (non_mapping_entry_raises (PStr "echo hello")). reflexivity.
Defined.

(** X8. Turning the loaded suite into test cases raises nothing but a
    [TypeError] or an [AttributeError], so the handler for YAML errors never
    catches it: a conversion prints nothing, or else the one warning for the
    YAML error that loading the suite raised. *)
Theorem warning_only_for_yaml_error :
  (forall v e,
      convert_suite v = Raise e ->
      exn_class_of e = TypeError \/ exn_class_of e = AttributeError) /\
  (forall folder_name files,
      fst (convert_exercise folder_name files) = [] \/
      exists e,
        suite_yaml files = Some (Raise e) /\
        is_YAMLError e = true /\
        fst (convert_exercise folder_name files)
        = [yaml_warning folder_name e]).
Proof.
  split.
  - intros v e H. apply SuiteMore.interpreter_error_classes.
    exact (SuiteMore.convert_suite_error v e H).
  - intros folder_name files.
    destruct (SuiteMore.convert_exercise_lines folder_name files)
      as [H|H]; [now left|].
    rewrite SuiteMore.read_suite_lines in H.
    destruct (suite_yaml files) as [[v|e]|]; try now left.
    destruct (is_YAMLError e) eqn:Y; [|now left].
    right. exists e. auto.
Qed.

(** X9. One test-case entry that is not a mapping fails the whole exercise:
    the conversion raises without printing, whatever the other entries are,
    and the directory adds no record. *)
Theorem one_bad_entry_fails_exercise :
  forall folder_name files tabs d entries entry,
    suite_yaml files = Some (Ok (PList tabs)) ->
    In (PDict d) tabs ->
    lookup "testcases" d = Some (PList entries) ->
    In entry entries ->
    is_dict entry = false ->
    (exists e, convert_exercise folder_name files = ([], Raise e)) /\
    records_of (Directory folder_name files) = [].
Proof.
  intros folder_name files tabs d entries entry Hsuite Htab Hd Hentry Hbad.
  assert (exists e, convert_test_case entry = Raise e) as (e0 & He0).
  { destruct entry as [|b|z|s|l|d']; try discriminate;
      unfold convert_test_case, input_lines_of, rbind; simpl; eauto.
    - destruct (Str.contains "stdin" s); simpl; eauto.
    - destruct (existsb _ l); simpl; eauto. }
  destruct (SuiteMore.for_each_raises _ _ _ _ Hentry He0) as (e1 & He1).
  assert (convert_tab (PDict d) = Raise e1) as Htabraise.
  { unfold convert_tab, rbind. simpl. rewrite Hd. simpl. exact He1. }
  destruct (SuiteMore.for_each_raises _ _ _ _ Htab Htabraise) as (e2 & He2).
  assert (convert_suite (PList tabs) = Raise e2) as Hs.
  { unfold convert_suite, rbind. destruct tabs; [contradiction|].
    simpl. simpl in He2. now rewrite He2. }
  assert (read_suite folder_name files = ([], Raise e2)) as Hread.
  { unfold read_suite. rewrite Hsuite. simpl. rewrite Hs.
    rewrite (SuiteMore.interpreter_error_not_yaml _
               (SuiteMore.convert_suite_error _ _ Hs)).
    reflexivity. }
  destruct (SuiteMore.convert_exercise_suite_raises _ _ _ Hread) as (e & He).
  split; [eauto|]. simpl. rewrite He. simpl.
  now destruct (has_config files).
Qed.

Lemma one_bad_entry_fails_exercise_witness :
  (exists e,
      convert_exercise "mixed"
        {| config_json := Some (Ok (Samples.titled_config "Mixed"));
           description_md := Ok "d";
           solution_txt := Ok "s";
           suite_yaml :=
             Some (Ok (PList [PDict [("testcases",
                                      PList [PDict [("stdout", PStr "1")];
                                             PStr "oops"])]])) |}
      = ([], Raise e)) /\
  records_of
    (Directory "mixed"
       {| config_json := Some (Ok (Samples.titled_config "Mixed"));
          description_md := Ok "d";
          solution_txt := Ok "s";
          suite_yaml :=
            Some (Ok (PList [PDict [("testcases",
                                     PList [PDict [("stdout", PStr "1")];
                                            PStr "oops"])]])) |}) = [].
Proof.
  apply (one_bad_entry_fails_exercise "mixed" _
           [PDict [("testcases",
                    PList [PDict [("stdout", PStr "1")]; PStr "oops"])]]
           [("testcases", PList [PDict [("stdout", PStr "1")]; PStr "oops"])]
           [PDict [("stdout", PStr "1")]; PStr "oops"]
           (PStr "oops")).
  - reflexivity.
  - now left.
  - reflexivity.
  - right. now left.
  - reflexivity.
Defined.

(** X10. A suite of the expected shape converts without raising, to one
    test case per entry, in the order of the tabs and, within a tab, of its
    entries. *)
Theorem well_formed_suite_converts (tabs : list pyval) :
  forallb tab_ok tabs = true ->
  exists tcs,
    convert_suite (PList tabs) = Ok tcs /\
    Forall2 (fun entry tc => convert_test_case entry = Ok tc)
            (flat_map tab_entries tabs) tcs /\
    List.length tcs = List.length (flat_map tab_entries tabs).
Proof.
  intros H.
  destruct (SuiteMore.tabs_ok_convert tabs H) as (per_tab & Hfor & Hall).
  exists (concat per_tab). split; [|split].
  - unfold convert_suite, rbind. destruct tabs as [|tab tabs].
    + simpl in *. now injection Hfor as <-.
    + simpl. simpl in Hfor. now rewrite Hfor.
  - exact Hall.
  - symmetry. exact (Forall2_length Hall).
Qed.

Lemma well_formed_suite_converts_witness :
  exists tcs,
    convert_suite
      (PList [PDict [("tab", PStr "A");
                     ("testcases",
                      PList [PDict [("stdin", PStr "1"); ("stdout", PStr "a")];
                             PDict [("stdin", PNone)]])];
              PDict [("tab", PStr "B")];
              PDict [("testcases", PList [PDict [("exit_code", PInt 2)]])]])
    = Ok tcs /\
    Forall2 (fun entry tc => convert_test_case entry = Ok tc)
      (flat_map tab_entries
         [PDict [("tab", PStr "A");
                 ("testcases",
                  PList [PDict [("stdin", PStr "1"); ("stdout", PStr "a")];
                         PDict [("stdin", PNone)]])];
          PDict [("tab", PStr "B")];
          PDict [("testcases", PList [PDict [("exit_code", PInt 2)]])]])
      tcs /\
    List.length tcs
    = List.length
        (flat_map tab_entries
           [PDict [("tab", PStr "A");
                   ("testcases",
                    PList [PDict [("stdin", PStr "1"); ("stdout", PStr "a")];
                           PDict [("stdin", PNone)]])];
            PDict [("tab", PStr "B")];
            PDict [("testcases", PList [PDict [("exit_code", PInt 2)]])]]).
Proof.
  apply well_formed_suite_converts. reflexivity.
Defined.

(** ** More on one exercise *)

Module ExerciseMore.

(** What a conversion that returns went through. *)
Lemma convert_exercise_returns folder_name files ex :
  snd (convert_exercise folder_name files) = Ok ex ->
  exists config t d s tcs,
    load_config files = Ok config /\
    get_title config folder_name = Ok t /\
    read_file_safe (description_md files) = Ok d /\
    read_file_safe (solution_txt files) = Ok s /\
    snd (read_suite folder_name files) = Ok tcs /\
    ex = {| id := folder_name_to_id folder_name;
            title := t;
            description := d;
            solution := s;
            testCases := tcs |}.
Proof.
  unfold convert_exercise, bind, lift. cbn [fst snd].
  destruct (load_config files) as [config|] eqn:Hc; cbn [fst snd];
    [|discriminate].
  destruct (get_title config folder_name) as [t|] eqn:Ht; cbn [fst snd];
    [|discriminate].
  destruct (read_file_safe (description_md files)) as [d|] eqn:Hd;
    cbn [fst snd]; [|discriminate].
  destruct (read_file_safe (solution_txt files)) as [s|] eqn:Hs;
    cbn [fst snd]; [|discriminate].
  destruct (read_suite folder_name files) as [out [tcs|e]] eqn:Hr;
    cbn [fst snd]; [|discriminate].
  intros [= <-]. exists config, t, d, s, tcs. repeat split; assumption.
Qed.

Lemma convert_exercise_config_raises folder_name files e :
  load_config files = Raise e ->
  convert_exercise folder_name files = ([], Raise e).
Proof.
  intros H. unfold convert_exercise, bind, lift. cbn [fst snd].
  now rewrite H.
Qed.

Lemma convert_exercise_title_raises folder_name files config e :
  load_config files = Ok config ->
  get_title config folder_name = Raise e ->
  convert_exercise folder_name files = ([], Raise e).
Proof.
  intros Hc H. unfold convert_exercise, bind, lift. cbn [fst snd].
  rewrite Hc. cbn [fst snd]. now rewrite H.
Qed.

End ExerciseMore.

(** X11. The title of a converted exercise is the folder name when there is
    no configuration file or when the configuration lacks [description],
    [names] below it or [en] below that; otherwise it is the value found
    under [en], of whatever type. *)
Theorem title_falls_back_to_folder_name :
  forall folder_name files ex,
    snd (convert_exercise folder_name files) = Ok ex ->
    (config_json files = None -> title ex = PStr folder_name) /\
    (forall d,
        config_json files = Some (Ok (PDict d)) ->
        lookup "description" d = None ->
        title ex = PStr folder_name) /\
    (forall d d1,
        config_json files = Some (Ok (PDict d)) ->
        lookup "description" d = Some (PDict d1) ->
        lookup "names" d1 = None ->
        title ex = PStr folder_name) /\
    (forall d d1 d2,
        config_json files = Some (Ok (PDict d)) ->
        lookup "description" d = Some (PDict d1) ->
        lookup "names" d1 = Some (PDict d2) ->
        title ex = match lookup "en" d2 with
                   | Some v => v
                   | None => PStr folder_name
                   end).
Proof.
  intros folder_name files ex H.
  destruct (ExerciseMore.convert_exercise_returns _ _ _ H)
    as (config & t & d0 & s & tcs & Hc & Ht & _ & _ & _ & ->).
  cbn [title]. unfold load_config in Hc. repeat split.
  - intros Hnone. rewrite Hnone in Hc. injection Hc as <-.
    simpl in Ht. now injection Ht as <-.
  - intros d Hd Hl. rewrite Hd in Hc. injection Hc as <-.
    unfold get_title, rbind in Ht. simpl in Ht. rewrite Hl in Ht.
    simpl in Ht. now injection Ht as <-.
  - intros d d1 Hd Hl Hn. rewrite Hd in Hc. injection Hc as <-.
    unfold get_title, rbind in Ht. simpl in Ht. rewrite Hl in Ht.
    simpl in Ht. rewrite Hn in Ht. simpl in Ht. now injection Ht as <-.
  - intros d d1 d2 Hd Hl Hn. rewrite Hd in Hc. injection Hc as <-.
    unfold get_title, rbind in Ht. simpl in Ht. rewrite Hl in Ht.
    simpl in Ht. rewrite Hn in Ht. simpl in Ht. now injection Ht as <-.
Qed.

Lemma title_falls_back_to_folder_name_witness :
  (config_json
     {| config_json := Some (Ok (PDict [("description", PDict [])]));
        description_md := Ok "d";
        solution_txt := Ok "s";
        suite_yaml := None |} = None ->
   title
     {| id := "no-names"; title := PStr "No Names"; description := "d";
        solution := "s"; testCases := [] |} = PStr "No Names") /\
  (forall d,
      config_json
        {| config_json := Some (Ok (PDict [("description", PDict [])]));
           description_md := Ok "d";
           solution_txt := Ok "s";
           suite_yaml := None |} = Some (Ok (PDict d)) ->
      lookup "description" d = None ->
      title
        {| id := "no-names"; title := PStr "No Names"; description := "d";
           solution := "s"; testCases := [] |} = PStr "No Names") /\
  (forall d d1,
      config_json
        {| config_json := Some (Ok (PDict [("description", PDict [])]));
           description_md := Ok "d";
           solution_txt := Ok "s";
           suite_yaml := None |} = Some (Ok (PDict d)) ->
      lookup "description" d = Some (PDict d1) ->
      lookup "names" d1 = None ->
      title
        {| id := "no-names"; title := PStr "No Names"; description := "d";
           solution := "s"; testCases := [] |} = PStr "No Names") /\
  (forall d d1 d2,
      config_json
        {| config_json := Some (Ok (PDict [("description", PDict [])]));
           description_md := Ok "d";
           solution_txt := Ok "s";
           suite_yaml := None |} = Some (Ok (PDict d)) ->
      lookup "description" d = Some (PDict d1) ->
      lookup "names" d1 = Some (PDict d2) ->
      title
        {| id := "no-names"; title := PStr "No Names"; description := "d";
           solution := "s"; testCases := [] |}
      = match lookup "en" d2 with
        | Some v => v
        | None => PStr "No Names"
        end).
Proof.
  apply (title_falls_back_to_folder_name "No Names"
           {| config_json := Some (Ok (PDict [("description", PDict [])]));
              description_md := Ok "d";
              solution_txt := Ok "s";
              suite_yaml := None |}).
  reflexivity.
Defined.

(** X12. A configuration, or a [description] or [names] entry in it, that
    is present and not a mapping is no reason to fall back: the conversion
    raises an [AttributeError] without printing, and the loop turns it into
    the error line of the directory and no record. *)
Theorem non_mapping_config_fails_exercise :
  (forall item files v,
      config_json files = Some (Ok v) ->
      is_dict v = false ->
      convert_exercise item files = ([], Raise (no_attribute v "get"))) /\
  (forall item files d x,
      config_json files = Some (Ok (PDict d)) ->
      lookup "description" d = Some x ->
      is_dict x = false ->
      convert_exercise item files = ([], Raise (no_attribute x "get"))) /\
  (forall item files d d1 x,
      config_json files = Some (Ok (PDict d)) ->
      lookup "description" d = Some (PDict d1) ->
      lookup "names" d1 = Some x ->
      is_dict x = false ->
      convert_exercise item files = ([], Raise (no_attribute x "get"))) /\
  (forall st item files x,
      has_config files = true ->
      convert_exercise item files = ([], Raise (no_attribute x "get")) ->
      exn_class_of (no_attribute x "get") = AttributeError /\
      scan_step st (Directory item files)
      = ((fst st ++ [error_line item (no_attribute x "get")])%list, snd st)).
Proof.
  split; [|split; [|split]].
  - intros item files v Hc Hv.
    apply (ExerciseMore.convert_exercise_title_raises _ _ v).
    + unfold load_config. now rewrite Hc.
    + destruct v; try discriminate; reflexivity.
  - intros item files d x Hc Hl Hx.
    apply (ExerciseMore.convert_exercise_title_raises _ _ (PDict d)).
    + unfold load_config. now rewrite Hc.
    + unfold get_title, rbind. simpl. rewrite Hl.
      destruct x; try discriminate; reflexivity.
  - intros item files d d1 x Hc Hl Hn Hx.
    apply (ExerciseMore.convert_exercise_title_raises _ _ (PDict d)).
    + unfold load_config. now rewrite Hc.
    + unfold get_title, rbind. simpl. rewrite Hl. simpl. rewrite Hn.
      destruct x; try discriminate; reflexivity.
  - intros st item files x Hcfg Hconv. split; [reflexivity|].
    simpl. rewrite Hcfg, Hconv. reflexivity.
Qed.

Lemma non_mapping_config_fails_exercise_witness :
  convert_exercise "nulls"
    {| config_json := Some (Ok (PDict [("description", PNone)]));
       description_md := Ok "d";
       solution_txt := Ok "s";
       suite_yaml := None |}
  = ([], Raise (no_attribute PNone "get")).
Proof.
  apply (proj1 (proj2 non_mapping_config_fails_exercise) "nulls" _
           [("description", PNone)] PNone); reflexivity.
Defined.

(** X13. When opening the description or the solution raises and the
    conversion still returns, the file was missing or undecodable and the
    field is the empty string; any other error of the read is the error of
    the conversion. *)
Theorem unreadable_text_file :
  (forall folder_name files ex e,
      snd (convert_exercise folder_name files) = Ok ex ->
      (description_md files = Raise e ->
       is_missing_or_undecodable e = true /\ description ex = EmptyString) /\
      (solution_txt files = Raise e ->
       is_missing_or_undecodable e = true /\ solution ex = EmptyString)) /\
  (forall folder_name files config t e,
      load_config files = Ok config ->
      get_title config folder_name = Ok t ->
      description_md files = Raise e ->
      is_missing_or_undecodable e = false ->
      convert_exercise folder_name files = ([], Raise e)).
Proof.
  split.
  - intros folder_name files ex e H.
    destruct (ExerciseMore.convert_exercise_returns _ _ _ H)
      as (config & t & d & s & tcs & _ & _ & Hd & Hs & _ & ->).
    cbn [description solution]. split; intros Hr.
    + rewrite Hr in Hd. simpl in Hd.
      destruct (is_missing_or_undecodable e); [|discriminate].
      now injection Hd as <-.
    + rewrite Hr in Hs. simpl in Hs.
      destruct (is_missing_or_undecodable e); [|discriminate].
      now injection Hs as <-.
  - intros folder_name files config t e Hc Ht Hr He.
    unfold convert_exercise, bind, lift. cbn [fst snd].
    rewrite Hc. cbn [fst snd]. rewrite Ht. cbn [fst snd].
    rewrite Hr. simpl. rewrite He. reflexivity.
Qed.

Lemma unreadable_text_file_witness :
  convert_exercise "locked"
    {| config_json := Some (Ok (PDict []));
       description_md := Raise (Exn OSError "Permission denied");
       solution_txt := Ok "s";
       suite_yaml := None |}
  = ([], Raise (Exn OSError "Permission denied")).
Proof.
  apply (proj2 unreadable_text_file "locked" _ (PDict []) (PStr "locked"));
    reflexivity.
Defined.

(** ** More on the batch *)

Module BatchMore.

Lemma not_candidate_adds_nothing entry :
  is_candidate entry = false ->
  Batch.lines_of entry = [] /\ records_of entry = [].
Proof.
  destruct entry as [item|item files]; simpl; [auto|].
  now intros ->.
Qed.

Lemma flat_map_filter {A B} (keep : A -> bool) (f : A -> list B) l :
  (forall a, keep a = false -> f a = []) ->
  flat_map f (filter keep l) = flat_map f l.
Proof.
  intros H. induction l as [|a l IH]; [reflexivity|].
  simpl. destruct (keep a) eqn:K; simpl; rewrite IH; [reflexivity|].
  now rewrite (H a K).
Qed.

Lemma records_count entries :
  List.length (flat_map records_of entries)
  + List.length (filter conversion_fails entries)
  = List.length (filter is_candidate entries).
Proof.
  induction entries as [|entry entries IH]; [reflexivity|].
  simpl. rewrite length_app.
  destruct entry as [item|item files]; simpl; [exact IH|].
  destruct (has_config files); simpl; [|exact IH].
  destruct (snd (convert_exercise item files)); simpl; lia.
Qed.

(** Records in the order of their titles, with no title twice, are in one
    order only. *)
Lemma same_title_same_record l a b :
  NoDup (map title_text l) -> In a l -> In b l ->
  title_text a = title_text b -> a = b.
Proof.
  induction l as [|x l IH]; [contradiction|].
  simpl. intros Hnd Ha Hb E. inversion Hnd as [|? ? Hx Hl]; subst.
  destruct Ha as [->|Ha], Hb as [->|Hb]; auto.
  - exfalso. apply Hx. rewrite E. now apply in_map.
  - exfalso. apply Hx. rewrite <- E. now apply in_map.
Qed.

Lemma sorted_unique l : forall l',
  StronglySorted by_title l -> StronglySorted by_title l' ->
  Permutation l l' -> NoDup (map title_text l) -> l = l'.
Proof.
  induction l as [|x l IH]; intros l' Hs Hs' Hp Hnd.
  - now apply Permutation_nil in Hp.
  - destruct l' as [|y l'];
      [apply Permutation_sym, Permutation_nil in Hp; discriminate|].
    apply StronglySorted_inv in Hs as [Hs Hx].
    apply StronglySorted_inv in Hs' as [Hs' Hy].
    assert (x = y) as <-.
    { assert (In y (x :: l)) as Hyin
        by (apply (Permutation_in _ (Permutation_sym Hp)); now left).
      assert (In x (y :: l')) as Hxin
        by (apply (Permutation_in _ Hp); now left).
      destruct Hyin as [->|Hyin]; [reflexivity|].
      destruct Hxin as [->|Hxin]; [reflexivity|].
      rewrite Forall_forall in Hx, Hy.
      apply (same_title_same_record (x :: l)); simpl; auto.
      apply String.leb_antisym; [apply Hx|apply Hy]; assumption. }
    f_equal. apply IH; auto.
    + now apply Permutation_cons_inv in Hp.
    + now inversion Hnd.
Qed.

Lemma forallb_permutation {A} (p : A -> bool) l l' :
  Permutation l l' -> forallb p l = true -> forallb p l' = true.
Proof.
  intros Hp H. rewrite forallb_forall in *. intros a Ha.
  apply H. exact (Permutation_in _ (Permutation_sym Hp) Ha).
Qed.

Lemma render_exercises_last l : forall ex,
  render_exercises (l ++ [ex])
  = Str.flatten (map (fun e => render_exercise e false) l)
    ++ render_exercise ex true.
Proof.
  induction l as [|a l IH]; intros ex; [reflexivity|].
  change ((a :: l) ++ [ex])%list with (a :: (l ++ [ex]))%list.
  assert (render_exercises (a :: (l ++ [ex]))
          = render_exercise a false ++ render_exercises (l ++ [ex])) as ->
    by (destruct l; reflexivity).
  rewrite IH. cbn [map Str.flatten]. symmetry. apply StrFacts.app_assoc.
Qed.

End BatchMore.

(** X14. Entries that are no directory with a configuration file count for
    nothing: without them the scan prints and gathers the same.  Each of the
    others gives a record or fails, never both. *)
Theorem only_candidates_count (entries : list dir_entry) :
  scan (filter is_candidate entries) = scan entries /\
  List.length (snd (scan entries))
  + List.length (filter conversion_fails entries)
  = List.length (filter is_candidate entries).
Proof.
  rewrite !Batch.scan_flat_map. split.
  - rewrite !BatchMore.flat_map_filter; [reflexivity| |];
      intros a Ha; now apply BatchMore.not_candidate_adds_nothing.
  - apply BatchMore.records_count.
Qed.

(** X15. When the titles of the converted exercises are all different, the
    text written and the list returned do not depend on the order in which
    the directory is listed. *)
Theorem output_independent_of_listing_order :
  forall entries entries' run,
    Permutation entries entries' ->
    generate_exercises_js entries = Some run ->
    NoDup (map title_text (exercises run)) ->
    exists run',
      generate_exercises_js entries' = Some run' /\
      exercises run' = exercises run /\
      js_content run' = js_content run.
Proof.
  intros entries entries' run Hp Hrun Hnd.
  unfold generate_exercises_js, sort_by_title in *.
  assert (Permutation (snd (scan entries)) (snd (scan entries'))) as Hrec.
  { rewrite !Batch.scan_flat_map. simpl. now apply Permutation_flat_map. }
  destruct (forallb title_is_str (snd (scan entries))) eqn:Hstr;
    [|discriminate].
  rewrite (BatchMore.forallb_permutation _ _ _ Hrec Hstr).
  injection Hrun as <-. cbn [exercises js_content] in *.
  assert (stable_sort_by_title (snd (scan entries'))
          = stable_sort_by_title (snd (scan entries))) as E.
  { symmetry. apply BatchMore.sorted_unique.
    - now apply TitleOrder.sort_sorted.
    - apply TitleOrder.sort_sorted.
      exact (BatchMore.forallb_permutation _ _ _ Hrec Hstr).
    - rewrite <- (TitleOrder.sort_permutation (snd (scan entries))).
      rewrite <- (TitleOrder.sort_permutation (snd (scan entries'))).
      exact Hrec.
    - exact Hnd. }
  eexists. split; [reflexivity|]. cbn [exercises js_content].
  now rewrite E.
Qed.

Lemma output_independent_of_listing_order_witness :
  exists run',
    generate_exercises_js
      [Directory "b" Samples.broken_suite; RegularFile "notes";
       Directory "h" Samples.hello]
    = Some run' /\
    exercises run'
    = [ {| id := "b"; title := PStr "Broken"; description := "Echo `x`.";
           solution := EmptyString; testCases := [] |};
        {| id := "h"; title := PStr "Hello"; description := "Say hello.";
           solution := "echo hello";
           testCases :=
             [{| arguments := PList []; expectedOutput := PStr "hello";
                 expectedExitCode := PInt 0; input := [] |}] |} ] /\
    js_content run'
    = render_js
        [ {| id := "b"; title := PStr "Broken"; description := "Echo `x`.";
             solution := EmptyString; testCases := [] |};
          {| id := "h"; title := PStr "Hello"; description := "Say hello.";
             solution := "echo hello";
             testCases :=
               [{| arguments := PList []; expectedOutput := PStr "hello";
                   expectedExitCode := PInt 0; input := [] |}] |} ].
Proof.
  apply (output_independent_of_listing_order
           [Directory "h" Samples.hello; Directory "b" Samples.broken_suite;
            RegularFile "notes"]
           [Directory "b" Samples.broken_suite; RegularFile "notes";
            Directory "h" Samples.hello]
           {| stdout :=
                fst (scan [Directory "h" Samples.hello;
                           Directory "b" Samples.broken_suite;
                           RegularFile "notes"])
                ++ [(nl ++ "Generated exercises-data.js with 2 exercises")%string];
              js_content :=
                render_js
                  [ {| id := "b"; title := PStr "Broken";
                       description := "Echo `x`.";
                       solution := EmptyString; testCases := [] |};
                    {| id := "h"; title := PStr "Hello";
                       description := "Say hello.";
                       solution := "echo hello";
                       testCases :=
                         [{| arguments := PList [];
                             expectedOutput := PStr "hello";
                             expectedExitCode := PInt 0; input := [] |}] |} ];
              exercises :=
                [ {| id := "b"; title := PStr "Broken";
                     description := "Echo `x`.";
                     solution := EmptyString; testCases := [] |};
                  {| id := "h"; title := PStr "Hello";
                     description := "Say hello.";
                     solution := "echo hello";
                     testCases :=
                       [{| arguments := PList [];
                           expectedOutput := PStr "hello";
                           expectedExitCode := PInt 0; input := [] |}] |} ] |}).
  - apply (Permutation_cons_append
             [Directory "b" Samples.broken_suite; RegularFile "notes"]
             (Directory "h" Samples.hello)).
  - reflexivity.
  - repeat constructor; simpl; intuition discriminate.
Defined.

(** X16. In the text of a converted exercise the description and the
    solution each read back as they were, and each reading stops where the
    script closed the literal: at the text that goes on with the next
    field. *)
Theorem rendered_fields_read_back :
  forall folder_name files ex last,
    snd (convert_exercise folder_name files) = Ok ex ->
    render_exercise ex last
    = ("    {" ++ nl
       ++ "        id: " ++ dquote ++ id ex ++ dquote ++ "," ++ nl
       ++ "        title: " ++ dquote ++ py_str (title ex) ++ dquote ++ ","
       ++ nl ++ "        description: ")
      ++ ("`" ++ convert_markdown_to_js_string (description ex) ++ "`"
          ++ ("," ++ nl ++ "        solution: ")
          ++ ("`" ++ convert_markdown_to_js_string (solution ex) ++ "`"
              ++ ("," ++ nl ++ "        testCases: [" ++ nl
                  ++ Str.flatten (map render_test_case (testCases ex))
                  ++ "        ]" ++ nl
                  ++ "    }" ++ (if last then EmptyString else ",") ++ nl))) /\
    template_literal
      ("`" ++ convert_markdown_to_js_string (description ex) ++ "`"
       ++ ("," ++ nl ++ "        solution: ")
       ++ ("`" ++ convert_markdown_to_js_string (solution ex) ++ "`"
           ++ ("," ++ nl ++ "        testCases: [" ++ nl
               ++ Str.flatten (map render_test_case (testCases ex))
               ++ "        ]" ++ nl
               ++ "    }" ++ (if last then EmptyString else ",") ++ nl)))
    = Some (description ex,
            ("," ++ nl ++ "        solution: ")
            ++ ("`" ++ convert_markdown_to_js_string (solution ex) ++ "`"
                ++ ("," ++ nl ++ "        testCases: [" ++ nl
                    ++ Str.flatten (map render_test_case (testCases ex))
                    ++ "        ]" ++ nl
                    ++ "    }" ++ (if last then EmptyString else ",") ++ nl)))
    /\
    template_literal
      ("`" ++ convert_markdown_to_js_string (solution ex) ++ "`"
       ++ ("," ++ nl ++ "        testCases: [" ++ nl
           ++ Str.flatten (map render_test_case (testCases ex))
           ++ "        ]" ++ nl
           ++ "    }" ++ (if last then EmptyString else ",") ++ nl))
    = Some (solution ex,
            "," ++ nl ++ "        testCases: [" ++ nl
            ++ Str.flatten (map render_test_case (testCases ex))
            ++ "        ]" ++ nl
            ++ "    }" ++ (if last then EmptyString else ",") ++ nl).
Proof.
  intros folder_name files ex last H.
  destruct (ExerciseMore.convert_exercise_returns _ _ _ H)
    as (config & t & d & s & tcs & _ & _ & Hd & Hs & _ & ->).
  cbn [id title description solution testCases].
  split; [|split].
  - unfold render_exercise.
    cbn [id title description solution testCases].
    rewrite !StrFacts.app_assoc. reflexivity.
  - apply ReadBack.template_literal_escaped.
    eapply ReadBack.read_file_safe_no_carriage_return; eassumption.
  - apply ReadBack.template_literal_escaped.
    eapply ReadBack.read_file_safe_no_carriage_return; eassumption.
Qed.

Lemma rendered_fields_read_back_witness :
  template_literal
    ("`" ++ convert_markdown_to_js_string "echo hello" ++ "`"
     ++ ("," ++ nl ++ "        testCases: [" ++ nl
         ++ Str.flatten
              (map render_test_case
                 [{| arguments := PList []; expectedOutput := PStr "hello";
                     expectedExitCode := PInt 0; input := [] |}])
         ++ "        ]" ++ nl
         ++ "    }" ++ "," ++ nl))
  = Some ("echo hello",
          "," ++ nl ++ "        testCases: [" ++ nl
          ++ Str.flatten
               (map render_test_case
                  [{| arguments := PList []; expectedOutput := PStr "hello";
                      expectedExitCode := PInt 0; input := [] |}])
          ++ "        ]" ++ nl
          ++ "    }" ++ "," ++ nl).
Proof.
  exact (proj2 (proj2 (rendered_fields_read_back "hello" Samples.hello
                         {| id := "hello"; title := PStr "Hello";
                            description := "Say hello.";
                            solution := "echo hello";
                            testCases :=
                              [{| arguments := PList [];
                                  expectedOutput := PStr "hello";
                                  expectedExitCode := PInt 0;
                                  input := [] |}] |}
                         false eq_refl))).
Defined.

(** X17. The records are written one after the other, each but the last
    with a comma behind its closing brace and the last without. *)
Theorem no_comma_after_last_record (l : list ExerciseRecord)
  (ex : ExerciseRecord) :
  render_exercises (l ++ [ex])
  = Str.flatten (map (fun e => render_exercise e false) l)
    ++ render_exercise ex true.
Proof. apply BatchMore.render_exercises_last. Qed.

(** ** The titles in the emitted text *)

Module EmittedTitles.

(** The line of a record that holds its id. *)
Definition id_line (ex : ExerciseRecord) : string :=
  "        id: " ++ dquote ++ id ex ++ dquote ++ ",".

Lemma split_app_nl a b :
  Str.split "010" (a ++ nl ++ b)
  = (Str.split "010" a ++ Str.split "010" b)%list.
Proof.
  induction a as [|c a IH]; [reflexivity|].
  change (String c a ++ nl ++ b) with (String c (a ++ nl ++ b)).
  cbn [Str.split]. rewrite IH.
  destruct (Ascii.eqb c "010"); [reflexivity|].
  destruct (Str.split "010" a) eqn:E;
    [now apply StripSplit.split_not_nil in E|].
  reflexivity.
Qed.

Lemma title_lines_app_nl a b :
  title_lines (a ++ nl ++ b) = (title_lines a ++ title_lines b)%list.
Proof. unfold title_lines. now rewrite split_app_nl, filter_app. Qed.

Lemma title_lines_skip s rest :
  one_line s -> Str.starts_with title_marker s = false ->
  title_lines (s ++ nl ++ rest) = title_lines rest.
Proof.
  intros Hs Hm. rewrite title_lines_app_nl. unfold title_lines at 1.
  rewrite (Lines.split_one_line _ Hs). cbn [filter]. now rewrite Hm.
Qed.

Lemma title_lines_keep s rest :
  one_line s -> Str.starts_with title_marker s = true ->
  title_lines (s ++ nl ++ rest) = s :: title_lines rest.
Proof.
  intros Hs Hm. rewrite title_lines_app_nl. unfold title_lines at 1.
  rewrite (Lines.split_one_line _ Hs). cbn [filter]. now rewrite Hm.
Qed.

Lemma title_lines_closed a rest :
  title_lines ((a ++ nl) ++ rest)
  = (title_lines (a ++ nl) ++ title_lines rest)%list.
Proof.
  rewrite StrFacts.app_assoc, title_lines_app_nl.
  change (title_lines (a ++ nl))
    with (title_lines (a ++ nl ++ EmptyString)).
  rewrite title_lines_app_nl.
  change (title_lines EmptyString) with (@nil string).
  now rewrite List.app_nil_r.
Qed.

Lemma starts_with_app p s : Str.starts_with p (p ++ s) = true.
Proof.
  induction p as [|c p IH]; [reflexivity|].
  simpl. now rewrite Ascii.eqb_refl, IH.
Qed.

Lemma after_title_closed ex last :
  exists a, after_title ex last = a ++ nl.
Proof.
  unfold after_title. rewrite <- !StrFacts.app_assoc. eexists. reflexivity.
Qed.

Lemma render_exercise_parts ex last :
  title_is_str ex = true ->
  render_exercise ex last
  = "    {" ++ nl ++ id_line ex ++ nl ++ title_line ex ++ nl
    ++ after_title ex last.
Proof.
  unfold title_is_str, render_exercise, id_line, title_line, title_marker,
    title_text, after_title.
  destruct (title ex); try discriminate. intros _.
  cbn [py_str]. rewrite !StrFacts.app_assoc. reflexivity.
Qed.

Lemma one_line_id_line ex : one_line (id ex) -> one_line (id_line ex).
Proof.
  intros H. unfold id_line.
  repeat (apply Lines.one_line_app; [try reflexivity; assumption|]).
  reflexivity.
Qed.

Lemma one_line_title_line ex :
  one_line (title_text ex) -> one_line (title_line ex).
Proof.
  intros H. unfold title_line.
  repeat (apply Lines.one_line_app; [try reflexivity; assumption|]).
  reflexivity.
Qed.

(** The lines of one record hold one title line, the record's. *)
Lemma title_lines_record ex last rest :
  title_is_str ex = true -> one_line (id ex) -> one_title_line ex ->
  title_lines (render_exercise ex last ++ rest)
  = title_line ex :: title_lines rest.
Proof.
  intros Hstr Hid [Ht Hafter].
  rewrite (render_exercise_parts _ _ Hstr).
  destruct (after_title_closed ex last) as [a Ha].
  specialize (Hafter last). rewrite Ha in *.
  replace (("    {" ++ nl ++ id_line ex ++ nl ++ title_line ex ++ nl
            ++ a ++ nl) ++ rest)
    with ("    {" ++ nl ++ id_line ex ++ nl ++ title_line ex ++ nl
          ++ (a ++ nl) ++ rest)
    by (now rewrite !StrFacts.app_assoc).
  rewrite title_lines_skip by reflexivity.
  rewrite title_lines_skip by (auto using one_line_id_line).
  rewrite title_lines_keep
    by (auto using one_line_title_line, starts_with_app).
  rewrite title_lines_closed, Hafter. reflexivity.
Qed.

Definition on_lines (ex : ExerciseRecord) : Prop :=
  title_is_str ex = true /\ one_line (id ex) /\ one_title_line ex.

Lemma title_lines_records l tail :
  Forall on_lines l ->
  title_lines (render_exercises l ++ tail)
  = (map title_line l ++ title_lines tail)%list.
Proof.
  induction l as [|a l IH]; intros H; [reflexivity|].
  inversion H as [|? ? (Hstr & Hid & Hone) Hl]; subst.
  destruct l as [|b l].
  - change (render_exercises [a]) with (render_exercise a true).
    now rewrite title_lines_record.
  - change (render_exercises (a :: b :: l))
      with (render_exercise a false ++ render_exercises (b :: l)).
    rewrite StrFacts.app_assoc, title_lines_record by assumption.
    rewrite (IH Hl). reflexivity.
Qed.

Lemma title_lines_render_js l :
  Forall on_lines l -> title_lines (render_js l) = map title_line l.
Proof.
  intros H. unfold render_js.
  rewrite !title_lines_skip by reflexivity.
  rewrite (title_lines_records _ _ H).
  change (title_lines "];") with (@nil string).
  now rewrite List.app_nil_r.
Qed.

(** An id holds no line feed. *)
Lemma slug_char_no_line_feed c :
  is_slug_char c = true -> Ascii.eqb "010" c = false.
Proof. CharFacts.all_chars c. Qed.

Lemma one_line_slug s : Str.forallb is_slug_char s = true -> one_line s.
Proof.
  unfold one_line. induction s as [|c s IH]; [reflexivity|].
  cbn [Str.forallb Str.existsb]. intros H.
  apply andb_true_iff in H as [Hc Hs].
  now rewrite (slug_char_no_line_feed _ Hc), (IH Hs).
Qed.

Lemma scan_ids entries ex :
  In ex (snd (scan entries)) -> one_line (id ex).
Proof.
  rewrite Batch.scan_flat_map. simpl. intros H.
  apply in_flat_map in H as ([item|item files] & _ & H); simpl in H;
    [contradiction|].
  destruct (has_config files); [|contradiction].
  destruct (snd (convert_exercise item files)) as [ex'|] eqn:E;
    [|contradiction].
  destruct H as [<-|[]].
  apply ExerciseMore.convert_exercise_returns in E
    as (config & t & d & s & tcs & _ & _ & _ & _ & _ & ->).
  apply one_line_slug, SlugShape.id_chars.
Qed.

(** The title lines of the text a run writes. *)
Lemma title_lines_of_run entries sorted :
  sort_by_title (snd (scan entries)) = Some sorted ->
  Forall one_title_line sorted ->
  title_lines (render_js sorted) = map title_line sorted.
Proof.
  unfold sort_by_title.
  destruct (forallb title_is_str (snd (scan entries))) eqn:Hstr;
    [|discriminate].
  intros [= <-] Hone. apply title_lines_render_js.
  pose proof (TitleOrder.sort_is_str _ Hstr) as Hsorted.
  rewrite forallb_forall in Hsorted.
  rewrite Forall_forall in *. intros ex Hex. repeat split.
  - now apply Hsorted.
  - apply (scan_ids entries).
    apply (Permutation_in _
             (Permutation_sym (TitleOrder.sort_permutation _)) Hex).
  - now apply Hone.
  - now apply Hone.
Qed.

End EmittedTitles.

(** C5. Records whose titles are strings are emitted sorted by title in the
    order of the code points (so case matters); the sort only rearranges,
    and records of one title keep the order of the scan.  A batch whose
    titles are strings runs to its end, and the text it writes holds the
    records in that order: read from top to bottom, the title lines of the
    text are the title lines of the sorted records, one after the other
    (for records whose title lies on one line and that hold no other line
    starting as a title line does).  Records titled ["Zeta"], ["Alpha"] and
    ["Mid"] come out as Alpha, Mid, Zeta whatever order they are met in, in
    the list returned and in the text written. *)
Theorem exercises_sorted_by_title :
  (forall exs,
      forallb title_is_str exs = true ->
      exists sorted,
        sort_by_title exs = Some sorted /\
        Permutation exs sorted /\
        StronglySorted by_title sorted /\
        (forall t, filter (has_title t) sorted
                   = filter (has_title t) exs)) /\
  (forall entries run,
      generate_exercises_js entries = Some run ->
      sort_by_title (snd (scan entries)) = Some (exercises run) /\
      js_content run = render_js (exercises run)) /\
  (forall z a m l,
      title z = PStr "Zeta" -> title a = PStr "Alpha" -> title m = PStr "Mid" ->
      Permutation l [z; a; m] ->
      sort_by_title l = Some [a; m; z]) /\
  (forall entries,
      forallb title_is_str (snd (scan entries)) = true ->
      exists run,
        generate_exercises_js entries = Some run /\
        Permutation (snd (scan entries)) (exercises run) /\
        StronglySorted by_title (exercises run) /\
        (forall t, filter (has_title t) (exercises run)
                   = filter (has_title t) (snd (scan entries))) /\
        (Forall one_title_line (exercises run) ->
         title_lines (js_content run) = map title_line (exercises run))) /\
  (forall entries z a m,
      title z = PStr "Zeta" -> title a = PStr "Alpha" -> title m = PStr "Mid" ->
      Permutation (snd (scan entries)) [z; a; m] ->
      one_title_line z -> one_title_line a -> one_title_line m ->
      exists run,
        generate_exercises_js entries = Some run /\
        exercises run = [a; m; z] /\
        title_lines (js_content run)
        = [ "        title: " ++ dquote ++ "Alpha" ++ dquote ++ ",";
            "        title: " ++ dquote ++ "Mid" ++ dquote ++ ",";
            "        title: " ++ dquote ++ "Zeta" ++ dquote ++ "," ]).
Proof.
  split; [|split; [|split; [|split]]].
  - intros exs H. exists (stable_sort_by_title exs).
    unfold sort_by_title. rewrite H.
    auto using TitleOrder.sort_permutation, TitleOrder.sort_sorted,
      TitleOrder.sort_stable.
  - intros entries run H. unfold generate_exercises_js in H.
    destruct (sort_by_title (snd (scan entries))); [|discriminate].
    now injection H as <-.
  - exact TitleOrder.sort_three.
  - intros entries Hstr.
    destruct (sort_by_title (snd (scan entries))) as [sorted|] eqn:Hsort.
    2:{ unfold sort_by_title in Hsort. rewrite Hstr in Hsort.
        discriminate. }
    unfold generate_exercises_js. rewrite Hsort.
    eexists. split; [reflexivity|]. cbn [exercises js_content].
    pose proof Hsort as Hfrom.
    unfold sort_by_title in Hsort. rewrite Hstr in Hsort.
    injection Hsort as <-.
    repeat split;
      auto using TitleOrder.sort_permutation, TitleOrder.sort_sorted,
        TitleOrder.sort_stable.
    apply (EmittedTitles.title_lines_of_run entries _ Hfrom).
  - intros entries z a m Hz Ha Hm Hperm Hone_z Hone_a Hone_m.
    pose proof (TitleOrder.sort_three _ _ _ _ Hz Ha Hm Hperm) as Hsort.
    unfold generate_exercises_js. rewrite Hsort.
    eexists. split; [reflexivity|]. cbn [exercises js_content].
    split; [reflexivity|].
    rewrite (EmittedTitles.title_lines_of_run entries _ Hsort)
      by (repeat (apply Forall_cons; [assumption|]); apply Forall_nil).
    unfold title_line, title_marker, title_text. cbn [map].
    rewrite Hz, Ha, Hm. reflexivity.
Qed.

Lemma exercises_sorted_by_title_witness :
  exists run,
    generate_exercises_js
      [ Directory "zeta" {| config_json := Some (Ok (Samples.titled_config "Zeta"));
                            description_md := Ok "Last of `three`.";
                            solution_txt := Ok "echo z";
                            suite_yaml := None |};
        RegularFile "README.md";
        Directory "alpha" {| config_json := Some (Ok (Samples.titled_config "Alpha"));
                             description_md := Ok ("First." ++ nl ++ "Two lines.");
                             solution_txt := Ok "echo a";
                             suite_yaml := None |};
        Directory "mid" {| config_json := Some (Ok (Samples.titled_config "Mid"));
                           description_md := Ok "Say hello.";
                           solution_txt := Ok "echo hello";
                           suite_yaml := suite_yaml Samples.hello |} ]
    = Some run /\
    exercises run
    = [ {| id := "alpha"; title := PStr "Alpha";
           description := "First." ++ nl ++ "Two lines.";
           solution := "echo a"; testCases := [] |};
        {| id := "mid"; title := PStr "Mid";
           description := "Say hello."; solution := "echo hello";
           testCases :=
             [{| arguments := PList []; expectedOutput := PStr "hello";
                 expectedExitCode := PInt 0; input := [] |}] |};
        {| id := "zeta"; title := PStr "Zeta";
           description := "Last of `three`.";
           solution := "echo z"; testCases := [] |} ] /\
    title_lines (js_content run)
    = [ "        title: " ++ dquote ++ "Alpha" ++ dquote ++ ",";
        "        title: " ++ dquote ++ "Mid" ++ dquote ++ ",";
        "        title: " ++ dquote ++ "Zeta" ++ dquote ++ "," ].
Proof.
  apply (proj2 (proj2 (proj2 (proj2 exercises_sorted_by_title)))).
  - reflexivity.
  - reflexivity.
  - reflexivity.
  - apply Permutation_refl.
  - split; [reflexivity|]. intros []; reflexivity.
  - split; [reflexivity|]. intros []; reflexivity.
  - split; [reflexivity|]. intros []; reflexivity.
Defined.
